(** * ExamForge: the batch loop, the report builder and the text extractor

    A shallow embedding of [langchain_ver/multimodal_utils.py] and of the
    extraction and display code of [langchain_ver/app_streamlit.py].

    Python objects coming out of [json.loads] are the inductive [value];
    dicts are association lists in insertion order (iterating a dict
    yields its keys in that order); a str is held as its UTF-8 bytes and
    iterated by code point.  Code that raises, mutates an object
    or talks to the outside (the chat-completion endpoint, the status
    callback) lives in the monad [M]: a state transformer whose state
    survives a raised exception, as a mutated Python object does.

    Library calls are the boundary of the model: the endpoint, [json.loads],
    the page renderers, [str()] of a non-string value and the markup parser
    behind [Paragraph(text, style)] are variables of the sections that use
    them; [Spacer] and [PageBreak] are constructors.  Exceptions are the instances of Python's [Exception]
    (what [except Exception] catches); the status callback is a callable
    that returns normally, as [update_status] of the app does. *)

From Corelib Require Import SpecFloat.
From Stdlib Require Import DecimalString.
From stdpp Require Import base list strings.

Local Open Scope string_scope.

(** ** Exceptions and results *)

Record Exception := mkException { exc_type : string; exc_str : string }.

Definition TypeError (msg : string) : Exception := mkException "TypeError" msg.
Definition KeyError (key : string) : Exception :=
  mkException "KeyError" ("'" +:+ key +:+ "'").
Definition IndexError (msg : string) : Exception := mkException "IndexError" msg.
Definition AttributeError (msg : string) : Exception :=
  mkException "AttributeError" msg.

Inductive result (A : Type) : Type :=
| Ok (a : A)
| Raise (e : Exception).
Arguments Ok {A} a.
Arguments Raise {A} e.

Definition is_ok {A} (r : result A) : bool :=
  match r with Ok _ => true | Raise _ => false end.

#[global] Instance result_ret : MRet result := fun A a => Ok a.

#[global] Instance result_bind : MBind result := fun A B f r =>
  match r with
  | Ok a => f a
  | Raise e => Raise e
  end.

(** ** Python values produced by [json.loads] *)

#[warnings="-register-all"]
Inductive value : Type :=
| VNone
| VBool (b : bool)
| VInt (n : Z)
| VFloat (x : spec_float)
| VStr (s : string)
| VList (items : list value)
| VDict (entries : list (string * value)).

Abbreviation dict := (list (string * value)).

Definition type_name (v : value) : string :=
  match v with
  | VNone => "NoneType"
  | VBool _ => "bool"
  | VInt _ => "int"
  | VFloat _ => "float"
  | VStr _ => "str"
  | VList _ => "list"
  | VDict _ => "dict"
  end.

(** [d.get(key)] / the lookup behind [d[key]]: the entry of [key]. *)
Fixpoint dict_lookup (key : string) (d : dict) : option value :=
  match d with
  | [] => None
  | (k, v) :: rest => if String.eqb k key then Some v else dict_lookup key rest
  end.

Definition dict_has (key : string) (d : dict) : bool :=
  match dict_lookup key d with Some _ => true | None => false end.

(** In-place replacement of the value stored under [key]. *)
Fixpoint dict_store (key : string) (v : value) (d : dict) : dict :=
  match d with
  | [] => []
  | (k, w) :: rest =>
      if String.eqb k key then (k, v) :: rest else (k, w) :: dict_store key v rest
  end.

Definition dict_keys (d : dict) : list string := map fst d.

(** [x == key] for a str [key]: only an equal str compares equal. *)
Definition eq_str (key : string) (x : value) : bool :=
  match x with VStr s => String.eqb s key | _ => false end.

Fixpoint is_prefix (p s : string) : bool :=
  match p, s with
  | EmptyString, _ => true
  | String a p', String b s' => Ascii.eqb a b && is_prefix p' s'
  | String _ _, EmptyString => false
  end.

(** [sub in s] on two strs. *)
Fixpoint str_contains (sub s : string) : bool :=
  is_prefix sub s ||
  match s with
  | EmptyString => false
  | String _ s' => str_contains sub s'
  end.

(** [key in v] with a str on the left. *)
Definition py_in (key : string) (v : value) : result bool :=
  match v with
  | VDict d => Ok (dict_has key d)
  | VList l => Ok (existsb (eq_str key) l)
  | VStr s => Ok (str_contains key s)
  | _ => Raise (TypeError ("argument of type '" +:+ type_name v +:+ "' is not iterable"))
  end.

(** [v[key]] with a str subscript. *)
Definition py_getitem (v : value) (key : string) : result value :=
  match v with
  | VDict d =>
      match dict_lookup key d with
      | Some x => Ok x
      | None => Raise (KeyError key)
      end
  | VList _ => Raise (TypeError "list indices must be integers or slices, not str")
  | VStr _ => Raise (TypeError "string indices must be integers, not 'str'")
  | _ => Raise (TypeError ("'" +:+ type_name v +:+ "' object is not subscriptable"))
  end.

(** A str is held as its UTF-8 bytes; its characters are its code
    points. A byte [10xxxxxx] continues the code point begun before it. *)
Definition is_continuation (c : Ascii.ascii) : bool :=
  match c with
  | Ascii.Ascii _ _ _ _ _ _ b6 b7 => b7 && negb b6
  end.

(** The continuation bytes a string starts with, and the code points
    that follow them. *)
Fixpoint code_points_from (s : string) : string * list string :=
  match s with
  | EmptyString => (EmptyString, [])
  | String c s' =>
      let '(k, pts) := code_points_from s' in
      if is_continuation c then (String c k, pts)
      else (EmptyString, String c k :: pts)
  end.

Definition code_points (s : string) : list string :=
  let '(k, pts) := code_points_from s in
  match k with
  | EmptyString => pts
  | _ => k :: pts
  end.

(** The characters of a str, each a str of one code point. *)
Definition chars (s : string) : list value := map VStr (code_points s).

(** The items [for x in v] goes through; [list.extend(v)] appends them. *)
Definition py_iter (v : value) : result (list value) :=
  match v with
  | VList l => Ok l
  | VStr s => Ok (chars s)
  | VDict d => Ok (map VStr (dict_keys d))
  | _ => Raise (TypeError ("'" +:+ type_name v +:+ "' object is not iterable"))
  end.

(** Truth value of an object, as [if x:] tests it. *)
Definition truthy (v : value) : bool :=
  match v with
  | VNone => false
  | VBool b => b
  | VInt n => negb (Z.eqb n 0)
  | VFloat x => match x with S754_zero _ => false | _ => true end
  | VStr s => negb (String.eqb s "")
  | VList l => match l with [] => false | _ => true end
  | VDict d => match d with [] => false | _ => true end
  end.

(** [l[i:j]] for [0 <= i <= j]: the end is clamped to the length. *)
Definition slice {A} (l : list A) (i j : nat) : list A := take (j - i) (drop i l).

(** [range(start, stop, step)] for a positive [step]; [fuel] bounds the
    number of values produced. *)
Fixpoint range_from (fuel start stop step : nat) : list nat :=
  match fuel with
  | O => []
  | S fuel' =>
      if (start <? stop)%nat then start :: range_from fuel' (start + step) stop step
      else []
  end.

Definition range (start stop step : nat) : list nat :=
  range_from (stop - start) start stop step.

(** [str(n)] of a non-negative int. *)
Definition str_of_nat (n : nat) : string := NilEmpty.string_of_uint (Nat.to_uint n).

(** ** The monad of a running function

    [M St A] runs on a state [St] (the objects the function can reach and
    the trace of its calls to the outside) and either returns or raises;
    the state reached is kept in both cases. *)

Definition M (St A : Type) : Type := St -> St * result A.

#[global] Instance M_ret {St} : MRet (M St) := fun A a s => (s, Ok a).

#[global] Instance M_bind {St} : MBind (M St) := fun A B f m s =>
  match m s with
  | (s', Ok a) => f a s'
  | (s', Raise e) => (s', Raise e)
  end.

Definition gets {St A} (f : St -> A) : M St A := fun s => (s, Ok (f s)).
Definition modify {St} (f : St -> St) : M St unit := fun s => (f s, Ok tt).
Definition lift {St A} (r : result A) : M St A := fun s => (s, r).

(** [try: body / except Exception as e: handler e]. *)
Definition try_except {St A} (body : M St A) (handler : Exception -> M St A) : M St A :=
  fun s =>
    match body s with
    | (s', Ok a) => (s', Ok a)
    | (s', Raise e) => handler e s'
    end.

(** [for x in l: body x], left by the first exception that escapes [body]. *)
Fixpoint for_each {St A} (l : list A) (body : A -> M St unit) : M St unit :=
  match l with
  | [] => mret tt
  | x :: rest => body x;; for_each rest body
  end.

(** ** The chat-completion endpoint *)

Inductive content_part : Type :=
| Text (text : string)
| ImageUrl (url : string).

Record request := mkRequest {
  req_api_key : string;
  req_model : string;
  req_content : list content_part;   (* the one user message *)
  req_response_format : string;
  req_temperature : string;
  req_max_tokens : nat
}.

Record choice := mkChoice { message_content : option string }.
Record completion := mkCompletion { choices : list choice }.

(** The status callback: a callable that returns normally; calling it is
    recorded in the state. [None] is the default argument. *)
Variant callable : Type := Callable.

(** What [generate_exam_with_groq] can reach: the list object passed as
    [base64_images], its local dict [all_results], and the outside, seen
    as the calls made to [client.chat.completions.create] (the request of
    each call; what the client library does with it on the wire, such as
    sending it again, is not part of the trace) and the messages received
    by the status callback, oldest first. *)
Record state := mkState {
  base64_images : list string;
  all_results : dict;
  requests : list request;
  statuses : list string
}.

Definition set_all_results (d : dict) (s : state) : state :=
  mkState (base64_images s) d (requests s) (statuses s).
Definition add_request (r : request) (s : state) : state :=
  mkState (base64_images s) (all_results s) (requests s ++ [r]) (statuses s).
Definition add_status (msg : string) (s : state) : state :=
  mkState (base64_images s) (all_results s) (requests s) (statuses s ++ [msg]).

Definition batch_size : nat := 5.
Definition model : string := "meta-llama/llama-4-scout-17b-16e-instruct".

(** [if status_callback: status_callback(msg)]. *)
Definition notify (status_callback : option callable) (msg : string) : M state unit :=
  match status_callback with
  | Some _ => modify (add_status msg)
  | None => mret tt
  end.

(** [all_results[key].extend]: the list whose method is about to be called. *)
Definition extend_method (key : string) (d : dict) : result (list value) :=
  match dict_lookup key d with
  | Some (VList l) => Ok l
  | Some v => Raise (AttributeError ("'" +:+ type_name v +:+ "' object has no attribute 'extend'"))
  | None => Raise (KeyError key)
  end.

(** [if key in result: all_results[key].extend(result[key])]: the method
    is looked up, then the argument is evaluated, then the list grows by
    the items the argument iterates over. *)
Definition merge_key (key : string) (result : value) : M state unit :=
  present ← lift (py_in key result);
  if (present : bool) then
    d ← gets all_results;
    l ← lift (extend_method key d);
    arg ← lift (py_getitem result key);
    items ← lift (py_iter arg);
    modify (set_all_results (dict_store key (VList (l ++ items)) d))
  else mret tt.

Definition processing_message (i total_pages : nat) : string :=
  "Processing batch " +:+ str_of_nat (i / batch_size + 1) +:+ " of "
  +:+ str_of_nat ((total_pages + batch_size - 1) / batch_size)
  +:+ " (Pages " +:+ str_of_nat (i + 1) +:+ " to "
  +:+ str_of_nat (Nat.min (i + batch_size) total_pages) +:+ ")...".

Definition error_message (i : nat) (e : Exception) : string :=
  "⚠️ Error in batch " +:+ str_of_nat (i / batch_size + 1) +:+ ": " +:+ exc_str e.

Definition image_part (img_b64 : string) : content_part :=
  ImageUrl ("data:image/png;base64," +:+ img_b64).

Section Generate.

(** The prompt literal of the function, the endpoint (its answer may
    depend on the requests it has received before) and [json.loads]. *)
Variable prompt_template : string.
Variable create : list request -> request -> result completion.
Variable json_loads : string -> result value.

Definition build_content (batch : list string) : list content_part :=
  Text prompt_template :: map image_part batch.

Definition build_request (api_key : string) (batch : list string) : request :=
  mkRequest api_key model (build_content batch) "json_object" "0.1" 2048.

(** [client.chat.completions.create(...)]. *)
Definition call_endpoint (r : request) : M state completion :=
  fun s => (add_request r s, create (requests s) r).

(** [completion.choices[0].message.content]. *)
Definition first_content (c : completion) : result (option string) :=
  match choices c with
  | ch :: _ => Ok (message_content ch)
  | [] => Raise (IndexError "list index out of range")
  end.

(** [json.loads(content)]; a [None] content is not a str. *)
Definition loads (content : option string) : result value :=
  match content with
  | Some text => json_loads text
  | None =>
      Raise (TypeError "the JSON object must be str, bytes or bytearray, not NoneType")
  end.

(** The body of the [try]. *)
Definition try_body (api_key : string) (batch : list string) : M state unit :=
  completion ← call_endpoint (build_request api_key batch);
  content ← lift (first_content completion);
  result ← lift (loads content);
  merge_key "mcq" result;;
  merge_key "short_answer" result;;
  merge_key "essay" result.

(** One iteration of the [for i in range(0, total_pages, batch_size)]. *)
Definition loop_body (api_key : string) (status_callback : option callable)
    (total_pages i : nat) : M state unit :=
  imgs ← gets base64_images;
  let batch := slice imgs i (i + batch_size) in
  notify status_callback (processing_message i total_pages);;
  try_except (try_body api_key batch)
    (fun e => notify status_callback (error_message i e)).

Definition empty_results : dict :=
  [("mcq", VList []); ("short_answer", VList []); ("essay", VList [])].

Definition generate_exam_with_groq (api_key : string)
    (status_callback : option callable) : M state dict :=
  modify (set_all_results empty_results);;
  imgs ← gets base64_images;
  let total_pages := length imgs in
  for_each (range 0 total_pages batch_size)
    (loop_body api_key status_callback total_pages);;
  gets all_results.

End Generate.

(** ** [convert_pdf_to_images] *)

Section Convert.

(** A loaded page, its rendering to PNG bytes
    ([page.get_pixmap().tobytes("png")]) and
    [base64.b64encode(...).decode('utf-8')]. *)
Variable page : Type.
Variable render_png : page -> list Byte.byte.
Variable b64encode : list Byte.byte -> string.

(** [doc.load_page(page_num)]. *)
Definition load_page (doc : list page) (page_num : nat) : result page :=
  match doc !! page_num with
  | Some p => Ok p
  | None => Raise (mkException "ValueError" "page not in document")
  end.

(** The state is the local list [base64_images]. *)
Definition convert_page (doc : list page) (page_num : nat) : M (list string) unit :=
  p ← lift (load_page doc page_num);
  let img_data := render_png p in
  let base64_img := b64encode img_data in
  modify (fun base64_images => (base64_images ++ [base64_img])%list).

Definition convert_pdf_to_images (doc : list page) : result (list string) :=
  let '(base64_images, r) := for_each (range 0 (length doc) 1) (convert_page doc) [] in
  match r with
  | Ok _ => Ok base64_images
  | Raise e => Raise e
  end.

End Convert.

(** ** [create_pdf_report] *)

Variant style : Type := title_style | section_style | question_style | option_style.

(** The flowables of the story, once made; a [Spacer]'s height is in
    hundredths of an inch ([0.2*inch] is [20]). Making a paragraph can
    fail, see [paragraph] below. *)
Inductive flowable : Type :=
| Paragraph (text : string) (st : style)
| Spacer (width height : nat)
| PageBreak.

(** What [create_pdf_report] can reach: the object passed as [exam_json]
    and its local list [story]. *)
Record report_state := mkReport {
  exam_json : value;
  story : list flowable
}.

Definition append_story (f : flowable) : M report_state unit :=
  modify (fun s => mkReport (exam_json s) (story s ++ [f])).

(** [v.get(key, default)]: only a dict has the method. *)
Definition py_get (v : value) (key : string) (default : value) : result value :=
  match v with
  | VDict d =>
      match dict_lookup key d with
      | Some x => Ok x
      | None => Ok default
      end
  | _ => Raise (AttributeError ("'" +:+ type_name v +:+ "' object has no attribute 'get'"))
  end.

Definition enumerate {A} (l : list A) : list (nat * A) := zip (seq 0 (length l)) l.

(** A text without [<] and without [&] holds no markup. *)
Definition plain (text : string) : bool :=
  negb (str_contains "<" text) && negb (str_contains "&" text).

Section Report.

(** The markup parser of the PDF library, [str(v)] of a value that is not
    a str, and [doc.build(story)] followed by [buffer.getvalue()].
    [markup_error text] is the exception the parser raises on [text], if
    it raises one. *)
Variable markup_error : string -> option Exception.
Variable repr : value -> string.
Variable build : list flowable -> result (list Byte.byte).

(** [Paragraph(text, style)]: the library parses [text] as markup when the
    paragraph is made, and raises on markup it cannot parse (an unclosed
    tag, say). A plain text is a paragraph as it is; on any other text
    the parser decides. *)
Definition paragraph (text : string) (st : style) : result flowable :=
  if plain text then Ok (Paragraph text st)
  else
    match markup_error text with
    | None => Ok (Paragraph text st)
    | Some e => Raise e
    end.

(** [story.append(Paragraph(text, style))]. *)
Definition add_paragraph (text : string) (st : style) : M report_state unit :=
  p ← lift (paragraph text st);
  append_story p.

(** What an f-string puts for [{v}]. *)
Definition format (v : value) : string :=
  match v with
  | VStr s => s
  | _ => repr v
  end.

(** [f"{i+1}. {q.get(field, 'N/A')}"] appended in [question_style]. *)
Definition numbered_line (field : string) (i : nat) (q : value) : M report_state unit :=
  v ← lift (py_get q field (VStr "N/A"));
  add_paragraph (str_of_nat (i + 1) +:+ ". " +:+ format v) question_style.

(** [for opt in q.get('options', []): ...]. *)
Definition option_lines (q : value) : M report_state unit :=
  v ← lift (py_get q "options" (VList []));
  opts ← lift (py_iter v);
  for_each opts (fun opt => add_paragraph ("• " +:+ format opt) option_style).

(** [if exam_json.get(key): story.append(heading);
     for i, q in enumerate(exam_json[key]): item i q] and then [after]
    (inside the [if]). *)
Definition section_of (key heading : string)
    (item : nat -> value -> M report_state unit) (after : M report_state unit)
    : M report_state unit :=
  ej ← gets exam_json;
  present ← lift (py_get ej key VNone);
  if truthy present then
    add_paragraph heading section_style;;
    ej ← gets exam_json;
    lst ← lift (py_getitem ej key);
    items ← lift (py_iter lst);
    for_each (enumerate items) (fun iq => item iq.1 iq.2);;
    after
  else mret tt.

Definition build_story : M report_state unit :=
  add_paragraph "Generated Exam Report" title_style;;
  append_story (Spacer 1 20);;
  section_of "mcq" "Part I: Multiple Choice Questions"
    (fun i q => numbered_line "question" i q;; option_lines q;;
                append_story (Spacer 1 10))
    (mret tt);;
  section_of "short_answer" "Part II: Short Answer Questions"
    (fun i q => numbered_line "question" i q;; append_story (Spacer 1 10))
    (mret tt);;
  section_of "essay" "Part III: Essay Questions"
    (fun i q => numbered_line "question" i q;; append_story (Spacer 1 10))
    (mret tt);;
  append_story PageBreak;;
  add_paragraph "Answer Key" title_style;;
  append_story (Spacer 1 20);;
  section_of "mcq" "Multiple Choice Answers:"
    (numbered_line "answer") (append_story (Spacer 1 15));;
  section_of "short_answer" "Short Answer Reference:"
    (numbered_line "answer") (append_story (Spacer 1 15));;
  section_of "essay" "Essay Key Points:"
    (numbered_line "key_points_to_cover") (mret tt).

Definition create_pdf_report : M report_state (list Byte.byte) :=
  modify (fun s => mkReport (exam_json s) []);;
  build_story;;
  st ← gets story;
  lift (build st).

End Report.

(** ** The exam display of the app (tab 2) *)

Inductive widget : Type :=
| Subheader (text : string)
| Write (text : string)
| WriteValue (v : value)
| Expander (label : string).

Section Display.

Variable repr : value -> string.

Definition show (w : widget) : M (list widget) unit :=
  modify (fun screen => (screen ++ [w])%list).

(** [st.write(f"**{i+1}. {q['question']}**")]. *)
Definition show_question (i : nat) (q : value) : M (list widget) unit :=
  v ← lift (py_getitem q "question");
  show (Write ("**" +:+ str_of_nat (i + 1) +:+ ". " +:+ format repr v +:+ "**")).

Definition show_mcq (i : nat) (q : value) : M (list widget) unit :=
  show_question i q;;
  v ← lift (py_getitem q "options");
  opts ← lift (py_iter v);
  for_each opts (fun opt => show (Write ("- " +:+ format repr opt)));;
  show (Expander ("Show Answer " +:+ str_of_nat (i + 1)));;
  a ← lift (py_get q "answer" (VStr "Not provided"));
  show (Write ("**Correct Answer:** " +:+ format repr a)).

Definition show_short_answer (i : nat) (q : value) : M (list widget) unit :=
  show_question i q;;
  show (Expander ("Show Answer " +:+ str_of_nat (i + 1)));;
  a ← lift (py_get q "answer" (VStr "Not provided"));
  show (WriteValue a).

Definition show_essay (i : nat) (q : value) : M (list widget) unit :=
  show_question i q;;
  show (Expander ("Show Key Points " +:+ str_of_nat (i + 1)));;
  a ← lift (py_get q "key_points_to_cover" (VStr "Not provided"));
  show (WriteValue a).

(** [if exam_json[key]: st.subheader(title); for i, q in enumerate(...)]. *)
Definition show_section (exam : value) (key title : string)
    (item : nat -> value -> M (list widget) unit) : M (list widget) unit :=
  lst ← lift (py_getitem exam key);
  if truthy lst then
    show (Subheader title);;
    lst ← lift (py_getitem exam key);
    items ← lift (py_iter lst);
    for_each (enumerate items) (fun iq => item iq.1 iq.2)
  else mret tt.

(** The three sections shown once an exam has questions. *)
Definition display_exam (exam : value) : M (list widget) unit :=
  show_section exam "mcq" "Multiple Choice Questions" show_mcq;;
  show_section exam "short_answer" "Short Answer Questions" show_short_answer;;
  show_section exam "essay" "Essay Questions" show_essay.

End Display.

(** ** The text extraction loop of the app *)

Section Extract.

(** A page of the opened PDF and [page.extract_text()], which gives a
    str or [None]. *)
Variable pdf_page : Type.
Variable extract_text : pdf_page -> option string.

(** [if page_text:]. *)
Definition has_text (page_text : option string) : bool :=
  match page_text with
  | Some t => negb (String.eqb t "")
  | None => false
  end.

(** [page_text = page.extract_text(); if page_text: text += page_text]. *)
Definition extract_step (text : string) (p : pdf_page) : string :=
  let page_text := extract_text p in
  if has_text page_text then
    match page_text with
    | Some t => text +:+ t
    | None => text
    end
  else text.

Definition extract_document_text (pages : list pdf_page) : string :=
  fold_left extract_step pages "".

End Extract.

(** ** Notions the properties are stated with *)

(** The values the local [batch] takes over the iterations of the loop. *)
Definition batches (imgs : list string) : list (list string) :=
  map (fun i => slice imgs i (i + batch_size)) (range 0 (length imgs) batch_size).

(** Pages [a] through [b] of a document, pages numbered from 1. *)
Definition pages {A} (l : list A) (a b : nat) : list A := slice l (a - 1) b.

(** A dict with exactly the three question lists. *)
Definition exam (a b c : list value) : dict :=
  [("mcq", VList a); ("short_answer", VList b); ("essay", VList c)].

(** The list a dict holds under [key]; nothing when the key is missing. *)
Definition questions (key : string) (d : dict) : list value :=
  match dict_lookup key d with
  | Some (VList l) => l
  | _ => []
  end.

(** A question item with a [question] field. *)
Definition has_question (item : value) : bool :=
  match item with
  | VDict d => dict_has "question" d
  | _ => false
  end.

(** What [if key in result: ....extend(result[key])] hands to [extend]. *)
Definition contribution (key : string) (v : value) : result (list value) :=
  present ← py_in key v;
  if (present : bool) then arg ← py_getitem v key; py_iter arg
  else Ok [].

(** The three merge statements, the later ones run only when the earlier
    ones have not raised. *)
Definition merged (o : result value) : list value * list value * list value :=
  match o with
  | Raise _ => ([], [], [])
  | Ok v =>
      match contribution "mcq" v with
      | Raise _ => ([], [], [])
      | Ok m =>
          match contribution "short_answer" v with
          | Raise _ => (m, [], [])
          | Ok sa =>
              match contribution "essay" v with
              | Raise _ => (m, sa, [])
              | Ok e => (m, sa, e)
              end
          end
      end
  end.

Definition merged_for (key : string) (o : result value) : list value :=
  if String.eqb key "mcq" then (merged o).1.1
  else if String.eqb key "short_answer" then (merged o).1.2
  else if String.eqb key "essay" then (merged o).2
  else [].

Definition exam_key (key : string) : Prop :=
  key = "mcq" \/ key = "short_answer" \/ key = "essay".

(** A response in the shape the prompt asks for: an object whose value
    under each of the three keys, when there is one, is a list. *)
Definition list_or_missing (key : string) (d : dict) : bool :=
  match dict_lookup key d with
  | Some (VList _) | None => true
  | Some _ => false
  end.

Definition well_shaped (v : value) : bool :=
  match v with
  | VDict d =>
      list_or_missing "mcq" d && list_or_missing "short_answer" d
      && list_or_missing "essay" d
  | _ => false
  end.

Definition response_questions (key : string) (v : value) : list value :=
  match v with
  | VDict d => questions key d
  | _ => []
  end.


Section Outcomes.

Variable create : list request -> request -> result completion.
Variable json_loads : string -> result value.

(** The model call and the JSON parse of one batch: the value of
    [result], or the exception raised before the merge. [h] is what the
    endpoint has received so far. *)
Definition batch_outcome (h : list request) (r : request) : result value :=
  completion ← create h r;
  content ← first_content completion;
  loads json_loads content.

(** The outcomes of the requests [rs] sent one after the other. *)
Fixpoint outcomes (h : list request) (rs : list request) : list (result value) :=
  match rs with
  | [] => []
  | r :: rest => batch_outcome h r :: outcomes (h ++ [r]) rest
  end.

End Outcomes.

(** The successfully parsed responses among the outcomes. *)
Fixpoint parsed (os : list (result value)) : list value :=
  match os with
  | [] => []
  | Ok v :: rest => v :: parsed rest
  | Raise _ :: rest => parsed rest
  end.

(** [m] never changes the object passed as [exam_json], raising or not. *)
Definition keeps_exam_json {A} (m : M report_state A) : Prop :=
  forall s, exam_json (m s).1 = exam_json s.

Definition is_object (q : value) : bool :=
  match q with
  | VDict _ => true
  | _ => false
  end.

(** A multiple-choice item: an object whose [options], when it has the
    field at all, can be iterated. *)
Definition mcq_item (q : value) : bool :=
  match q with
  | VDict d =>
      match dict_lookup "options" d with
      | Some v => is_ok (py_iter v)
      | None => true
      end
  | _ => false
  end.

Definition list_of (item_ok : value -> bool) (key : string) (d : dict) : bool :=
  match dict_lookup key d with
  | None => true
  | Some (VList l) => forallb item_ok l
  | Some _ => false
  end.

(** An [exam_json] whose question lists, where present, are lists of
    objects; which fields the objects have is left open. *)
Definition exam_of_objects (ej : value) : bool :=
  match ej with
  | VDict d =>
      list_of mcq_item "mcq" d && list_of is_object "short_answer" d
      && list_of is_object "essay" d
  | _ => false
  end.

Section ExtractNotions.

Variable pdf_page : Type.
Variable extract_text : pdf_page -> option string.

(** The texts of the pages that yield one, in page order. *)
Fixpoint kept_texts (pages : list pdf_page) : list string :=
  match pages with
  | [] => []
  | p :: rest =>
      match extract_text p with
      | Some t => if String.eqb t "" then kept_texts rest else t :: kept_texts rest
      | None => kept_texts rest
      end
  end.

End ExtractNotions.

(** ** Sample endpoints, responses and documents *)

Definition endpoint_replying (text : string) (h : list request) (r : request)
    : result completion :=
  Ok (mkCompletion [mkChoice (Some text)]).

Definition endpoint_down (h : list request) (r : request) : result completion :=
  Raise (mkException "APIConnectionError" "Connection error.").

Definition parser_giving (v : value) (text : string) : result value := Ok v.

Definition fresh (imgs : list string) : state := mkState imgs [] [] [].

Definition one_page : list string := ["page1"].
Definition seven_pages : list string :=
  ["page1"; "page2"; "page3"; "page4"; "page5"; "page6"; "page7"].

Definition heap_question : value :=
  VDict [("question", VStr "What is a heap?"); ("options", VList [VStr "a"; VStr "b"]);
         ("answer", VStr "a")].
Definition trie_question : value :=
  VDict [("question", VStr "Describe a trie."); ("key_points_to_cover", VStr "prefixes")].

(** [{"mcq": [...], "essay": [...]}]: the shape the prompt asks for. *)
Definition good_response : value :=
  VDict [("mcq", VList [heap_question]); ("essay", VList [trie_question])].

(** [{"mcq": [...], "short_answer": null, "essay": [...]}]. *)
Definition null_short_answer : value :=
  VDict [("mcq", VList [heap_question]); ("short_answer", VNone);
         ("essay", VList [trie_question])].

(** [{"mcq": [{"text": "What is a heap?"}]}]: an item without [question]. *)
Definition untitled_item : value := VDict [("text", VStr "What is a heap?")].

(** An exam whose items lack fields. *)
Definition sparse_exam : value :=
  VDict [("mcq", VList [VDict []; heap_question]); ("essay", VList [VDict []])].

Definition plain_repr (v : value) : string := "<" +:+ type_name v +:+ ">".

(** A markup parser that takes no markup at all: it raises on every text
    that is not plain. *)
Definition strict_markup (text : string) : option Exception :=
  Some (mkException "ValueError" "paraparser: syntax error").
Definition no_build (st : list flowable) : result (list Byte.byte) := Ok [].

(** ** The status trace of a run *)

(** The exception that leaves the [try] block of a batch, if one does:
    from the model call or the parse, or from a merge statement. *)
Definition try_failure (o : result value) : option Exception :=
  match o with
  | Raise e => Some e
  | Ok v =>
      match contribution "mcq" v with
      | Raise e => Some e
      | Ok _ =>
          match contribution "short_answer" v with
          | Raise e => Some e
          | Ok _ =>
              match contribution "essay" v with
              | Raise e => Some e
              | Ok _ => None
              end
          end
      end
  end.

(** The message announcing batch [k] of [m], pages [a] to [b]. *)
Definition announce (k m a b : nat) : string :=
  "Processing batch " +:+ str_of_nat k +:+ " of " +:+ str_of_nat m
  +:+ " (Pages " +:+ str_of_nat a +:+ " to " +:+ str_of_nat b +:+ ")...".

Definition failure_line (k : nat) (o : result value) : list string :=
  match try_failure o with
  | Some e => ["⚠️ Error in batch " +:+ str_of_nat k +:+ ": " +:+ exc_str e]
  | None => []
  end.

(** The messages of the batches numbered [k], [k+1], ... of a document of
    [n] pages cut into [m] batches, given their outcomes. *)
Fixpoint status_lines (n m k : nat) (os : list (result value)) : list string :=
  match os with
  | [] => []
  | o :: rest =>
      (announce k m ((k - 1) * 5 + 1) (Nat.min (k * 5) n) :: failure_line k o)
      ++ status_lines n m (S k) rest
  end.

(** The URLs of the image parts of a request, in order. *)
Definition image_urls (r : request) : list string :=
  omap (fun part => match part with ImageUrl url => Some url | Text _ => None end)
       (req_content r).

(** ** The rest of the exam tab: the page once the exam is there *)

(** [len(v)]. *)
Definition py_len (v : value) : result nat :=
  match v with
  | VList l => Ok (length l)
  | VStr s => Ok (length (code_points s))
  | VDict d => Ok (length d)
  | _ => Raise (TypeError ("object of type '" +:+ type_name v +:+ "' has no len()"))
  end.

(** What the tab puts on the page: the widgets of the display, and the
    boxes, divider and download button around them. *)
Inductive output : Type :=
| Shown (w : widget)
| WarningBox (text : string)
| SuccessBox (text : string)
| ErrorBox (text : string)
| Divider
| DownloadButton (label : string) (data : list Byte.byte) (file_name mime : string).

Definition put (o : output) : M (list output) unit :=
  modify (fun page => (page ++ [o])%list).

(** The widgets a display function shows, put on the page. *)
Definition on_page {A} (m : M (list widget) A) : M (list output) A :=
  fun page => let '(ws, r) := m [] in ((page ++ map Shown ws)%list, r).

Definition no_content_warning : string :=
  "No technical content was found to generate questions. The PDF might be mostly administrative or images might be too low resolution.".

Section ExamTab.

Variable markup_error : string -> option Exception.
Variable repr : value -> string.
Variable build : list flowable -> result (list Byte.byte).

(** [not exam_json or (not exam_json["mcq"] and not exam_json["short_answer"]
    and not exam_json["essay"])], with the short cuts of [or] and [and]. *)
Definition no_questions (exam_json : value) : result bool :=
  if negb (truthy exam_json) then Ok true
  else
    m ← py_getitem exam_json "mcq";
    if truthy m then Ok false
    else
      sa ← py_getitem exam_json "short_answer";
      if truthy sa then Ok false
      else
        e ← py_getitem exam_json "essay";
        Ok (negb (truthy e)).

(** [len(exam_json['mcq']) + len(exam_json['short_answer'])
    + len(exam_json['essay'])]. *)
Definition total_questions (exam_json : value) : result nat :=
  m ← py_getitem exam_json "mcq";
  a ← py_len m;
  sa ← py_getitem exam_json "short_answer";
  b ← py_len sa;
  e ← py_getitem exam_json "essay";
  c ← py_len e;
  Ok (a + b + c).

(** The inner [try]: the report and its download button, or the error. *)
Definition export_exam (exam_json : value) : M (list output) unit :=
  try_except
    (pdf_content ← lift (create_pdf_report markup_error repr build
                            (mkReport exam_json [])).2;
     put (DownloadButton "Download Exam PDF" pdf_content "generated_exam.pdf"
            "application/pdf"))
    (fun pdf_err => put (ErrorBox ("Error creating PDF: " +:+ exc_str pdf_err))).

(** From the [if not exam_json or ...] to the end of the inner [try]. *)
Definition show_generated_exam (exam_json : value) : M (list output) unit :=
  none ← lift (no_questions exam_json);
  if (none : bool) then put (WarningBox no_content_warning)
  else
    total ← lift (total_questions exam_json);
    put (SuccessBox ("Exam Generated! Total Questions: " +:+ str_of_nat total));;
    on_page (display_exam repr exam_json);;
    put Divider;;
    put (Shown (Subheader "📥 Export Exam"));;
    export_exam exam_json.

(** The same under the outer [try ... except Exception as e]. *)
Definition exam_tab (exam_json : value) : M (list output) unit :=
  try_except (show_generated_exam exam_json)
    (fun e => put (ErrorBox ("An error occurred: " +:+ exc_str e))).

End ExamTab.

(** ** Notions for the report and the display *)

(** [q.get(field, 'N/A')] of an object. *)
Definition field_or_na (field : string) (q : value) : value :=
  match q with
  | VDict d =>
      match dict_lookup field d with
      | Some v => v
      | None => VStr "N/A"
      end
  | _ => VStr "N/A"
  end.

Definition is_numbered_line (f : flowable) : bool :=
  match f with
  | Paragraph _ question_style => true
  | _ => false
  end.

Definition is_page_break (f : flowable) : bool :=
  match f with
  | PageBreak => true
  | _ => false
  end.

(** An item the display can show: an object with a [question]. *)
Definition titled (q : value) : bool := has_question q.

(** A multiple-choice item the display can show: it also has [options],
    and they can be iterated. *)
Definition titled_mcq (q : value) : bool :=
  match q with
  | VDict d =>
      dict_has "question" d
      && match dict_lookup "options" d with
         | Some v => is_ok (py_iter v)
         | None => false
         end
  | _ => false
  end.

Section Acceptance.

Variable markup_error : string -> option Exception.

(** The library makes a paragraph of [text]. *)
Definition accepted (text : string) : bool :=
  plain text
  || match markup_error text with
     | None => true
     | Some _ => false
     end.

Definition accepted_flowable (f : flowable) : bool :=
  match f with
  | Paragraph text _ => accepted text
  | _ => true
  end.

(** Every paragraph among [fl] has a text the library accepts. *)
Definition all_accepted (fl : list flowable) : Prop :=
  Forall (fun f => accepted_flowable f = true) fl.

(** When the library accepts the paragraphs among [fl], [m] returns
    normally from every state whose [exam_json] is [ej], having appended
    the flowables [fl] to the story and nothing else. *)
Definition appends (ej : value) (m : M report_state unit) (fl : list flowable) : Prop :=
  forall s, exam_json s = ej -> all_accepted fl ->
    m s = (mkReport ej (story s ++ fl), Ok tt).

End Acceptance.

Section StoryNotions.

Variable repr : value -> string.

(** The numbered line of item [iq.2], the [iq.1]-th of its list. *)
Definition line (field : string) (iq : nat * value) : flowable :=
  Paragraph (str_of_nat (iq.1 + 1) +:+ ". " +:+ format repr (field_or_na field iq.2))
    question_style.

Definition lines (field : string) (l : list value) : list flowable :=
  map (line field) (enumerate l).

(** The option lines of an item. *)
Definition option_flowables (q : value) : list flowable :=
  match py_get q "options" (VList []) with
  | Ok v =>
      match py_iter v with
      | Ok opts => map (fun opt => Paragraph ("• " +:+ format repr opt) option_style) opts
      | Raise _ => []
      end
  | Raise _ => []
  end.

(** A section of the story: nothing for an empty list. *)
Definition section_flow (heading : string) (l : list value)
    (item : nat * value -> list flowable) (after : list flowable) : list flowable :=
  match l with
  | [] => []
  | _ => Paragraph heading section_style :: concat (map item (enumerate l)) ++ after
  end.

Definition questions_part (a b c : list value) : list flowable :=
  [Paragraph "Generated Exam Report" title_style; Spacer 1 20]
  ++ section_flow "Part I: Multiple Choice Questions" a
       (fun iq => line "question" iq :: option_flowables iq.2 ++ [Spacer 1 10]) []
  ++ section_flow "Part II: Short Answer Questions" b
       (fun iq => [line "question" iq; Spacer 1 10]) []
  ++ section_flow "Part III: Essay Questions" c
       (fun iq => [line "question" iq; Spacer 1 10]) [].

Definition answers_part (a b c : list value) : list flowable :=
  [Paragraph "Answer Key" title_style; Spacer 1 20]
  ++ section_flow "Multiple Choice Answers:" a (fun iq => [line "answer" iq])
       [Spacer 1 15]
  ++ section_flow "Short Answer Reference:" b (fun iq => [line "answer" iq])
       [Spacer 1 15]
  ++ section_flow "Essay Key Points:" c (fun iq => [line "key_points_to_cover" iq]) [].

End StoryNotions.

(** The value under [key] is missing or false as a condition. *)
Definition absent_or_falsy (key : string) (d : dict) : bool :=
  match dict_lookup key d with
  | Some v => negb (truthy v)
  | None => true
  end.

Definition try_result (o : result value) : result unit :=
  match try_failure o with
  | Some e => Raise e
  | None => Ok tt
  end.

Definition batch_report (cb : option callable) (total_pages i : nat)
    (o : result value) : list string :=
  match cb with
  | None => []
  | Some _ =>
      processing_message i total_pages
      :: match try_failure o with
         | Some e => [error_message i e]
         | None => []
         end
  end.

(** [m] returns normally, from every screen, exactly when [b] holds. *)
Definition decides (m : M (list widget) unit) (b : bool) : Prop :=
  forall screen, is_ok (m screen).2 = b.

Definition is_nil {A} (l : list A) : bool :=
  match l with
  | [] => true
  | _ => false
  end.

(** The field of an item the report prints in the lists under [key]:
    its [question], and in the answer key its [answer] or, for an essay,
    its [key_points_to_cover]. *)
Definition report_field (key field : string) : Prop :=
  (exam_key key /\ field = "question")
  \/ ((key = "mcq" \/ key = "short_answer") /\ field = "answer")
  \/ (key = "essay" /\ field = "key_points_to_cover").

(** * Properties *)

(** ** Ranges and slices *)

Lemma range_from_step5 (fuel i n : nat) :
  n - i <= fuel ->
  range_from fuel i n 5 = map (fun k => i + k * 5) (seq 0 ((n - i + 4) / 5)).
Proof.
  revert i. induction fuel as [|fuel IH]; intros i Hfuel; cbn [range_from].
  - replace (n - i + 4) with 4 by lia. reflexivity.
  - destruct (Nat.ltb_spec i n) as [Hlt|Hge].
    + rewrite IH by lia.
      assert ((n - i + 4) / 5 = S ((n - (i + 5) + 4) / 5)) as ->.
      { destruct (Nat.le_gt_cases (i + 5) n) as [Hle|Hgt].
        - replace (n - i + 4) with ((n - (i + 5) + 4) + 1 * 5) by lia.
          rewrite Nat.div_add by lia. lia.
        - replace (n - (i + 5) + 4) with 4 by lia.
          change (4 / 5) with 0.
          symmetry. apply Nat.div_unique with (r := n - i - 1). lia. lia. }
      cbn [seq map]. f_equal; [lia|].
      rewrite <- seq_shift, map_map. apply map_ext. intros k. lia.
    + replace (n - i + 4) with 4 by lia. reflexivity.
Qed.

Lemma range_batch_size (n : nat) :
  range 0 n batch_size = map (fun k => k * 5) (seq 0 ((n + 4) / 5)).
Proof.
  unfold range, batch_size. rewrite range_from_step5 by lia.
  rewrite Nat.sub_0_r. apply map_ext. intros k; lia.
Qed.

Lemma slice_clamp {A} (l : list A) (i j : nat) :
  slice l i j = slice l i (Nat.min j (length l)).
Proof.
  unfold slice. destruct (Nat.le_gt_cases j (length l)) as [Hle|Hgt].
  - rewrite Nat.min_l by lia. reflexivity.
  - rewrite Nat.min_r by lia.
    rewrite !take_ge; [reflexivity| |]; rewrite length_drop; lia.
Qed.

Lemma batches_by_number (imgs : list string) :
  batches imgs =
  map (fun k => slice imgs (k * 5) (k * 5 + 5)) (seq 0 ((length imgs + 4) / 5)).
Proof. unfold batches. rewrite range_batch_size, map_map. reflexivity. Qed.

Lemma batches_length (imgs : list string) :
  length (batches imgs) = (length imgs + 4) / 5.
Proof. rewrite batches_by_number, length_map, length_seq. reflexivity. Qed.

Lemma ceil5_bounds (n : nat) : n <= 5 * ((n + 4) / 5) < n + 5.
Proof.
  pose proof (Nat.div_mod_eq (n + 4) 5).
  pose proof (Nat.mod_upper_bound (n + 4) 5). lia.
Qed.

Lemma batches_lookup (imgs : list string) (k : nat) :
  k < (length imgs + 4) / 5 ->
  batches imgs !! k = Some (slice imgs (k * 5) (k * 5 + 5)).
Proof.
  intros Hk. rewrite batches_by_number, list_lookup_fmap.
  rewrite lookup_seq_lt by assumption. reflexivity.
Qed.

Lemma concat_slices {A} (l : list A) (m : nat) :
  concat (map (fun k => slice l (k * 5) (k * 5 + 5)) (seq 0 m)) = take (m * 5) l.
Proof.
  induction m as [|m IH].
  - reflexivity.
  - rewrite seq_S, map_app, concat_app, IH. cbn [map concat Nat.add].
    rewrite app_nil_r. unfold slice.
    replace (m * 5 + 5 - m * 5) with 5 by lia.
    rewrite take_take_drop. f_equal. lia.
Qed.

Lemma concat_batches (imgs : list string) : concat (batches imgs) = imgs.
Proof.
  rewrite batches_by_number, concat_slices.
  apply take_ge. pose proof (ceil5_bounds (length imgs)). lia.
Qed.

Lemma batches_page (imgs : list string) (k j : nat) :
  batches imgs !! k ≫= (fun b => b !! j) =
  if decide (j < 5) then imgs !! (k * 5 + j) else None.
Proof.
  pose proof (ceil5_bounds (length imgs)) as Hc.
  destruct (Nat.lt_ge_cases k ((length imgs + 4) / 5)) as [Hk|Hk].
  - rewrite batches_lookup by assumption. cbn [mbind option_bind].
    unfold slice. replace (k * 5 + 5 - k * 5) with 5 by lia.
    rewrite lookup_take. destruct (decide (j < 5)); [|reflexivity].
    apply lookup_drop.
  - rewrite (lookup_ge_None_2 (batches imgs)) by (rewrite batches_length; lia).
    cbn [mbind option_bind]. destruct (decide (j < 5)); [|reflexivity].
    symmetry. apply lookup_ge_None_2. lia.
Qed.

(** ** One merge statement, one iteration, the whole loop *)

Lemma state_eta (s : state) : set_all_results (all_results s) s = s.
Proof. destruct s; reflexivity. Qed.

Ltac run_merge_key :=
  intros Hd;
  unfold merge_key, contribution, mbind, M_bind, result_bind, lift, gets, modify;
  match goal with
  | |- context [py_in ?k ?v] => destruct (py_in k v) as [[|]|?]
  end;
  cbn [mret M_ret result_ret];
  [ rewrite Hd; cbn;
    match goal with
    | |- context [py_getitem ?v ?k] => destruct (py_getitem v k) as [?|?]
    end;
    [ match goal with
      | |- context [py_iter ?a] => destruct (py_iter a) as [?|?]
      end | ]; rewrite <- ?Hd; reflexivity
  | rewrite app_nil_r, <- Hd, state_eta; reflexivity
  | reflexivity ].

Lemma merge_mcq_run (v : value) (s : state) (a b c : list value) :
  all_results s = exam a b c ->
  merge_key "mcq" v s =
  match contribution "mcq" v with
  | Ok items => (set_all_results (exam (a ++ items) b c) s, Ok tt)
  | Raise e => (s, Raise e)
  end.
Proof. run_merge_key. Qed.

Lemma merge_short_answer_run (v : value) (s : state) (a b c : list value) :
  all_results s = exam a b c ->
  merge_key "short_answer" v s =
  match contribution "short_answer" v with
  | Ok items => (set_all_results (exam a (b ++ items) c) s, Ok tt)
  | Raise e => (s, Raise e)
  end.
Proof. run_merge_key. Qed.

Lemma merge_essay_run (v : value) (s : state) (a b c : list value) :
  all_results s = exam a b c ->
  merge_key "essay" v s =
  match contribution "essay" v with
  | Ok items => (set_all_results (exam a b (c ++ items)) s, Ok tt)
  | Raise e => (s, Raise e)
  end.
Proof. run_merge_key. Qed.

Section Run.

Variable prompt_template : string.
Variable create : list request -> request -> result completion.
Variable json_loads : string -> result value.

Let request_of (api_key : string) (imgs : list string) (i : nat) : request :=
  build_request prompt_template api_key (slice imgs i (i + batch_size)).

(** The three merge statements leave [all_results] with what [merged]
    says, whether or not one of them raises. *)
Lemma merges_run (v : value) (s : state) (a b c : list value) :
  all_results s = exam a b c ->
  exists r,
    (merge_key "mcq" v;; merge_key "short_answer" v;; merge_key "essay" v) s =
    (set_all_results
       (exam (a ++ (merged (Ok v)).1.1) (b ++ (merged (Ok v)).1.2)
             (c ++ (merged (Ok v)).2)) s, r).
Proof.
  intros Hd. unfold mbind, M_bind, merged.
  rewrite (merge_mcq_run v s a b c Hd).
  destruct (contribution "mcq" v) as [m|e]; cbn [fst snd].
  2:{ eexists. rewrite !app_nil_r, <- Hd, state_eta. reflexivity. }
  rewrite (merge_short_answer_run v (set_all_results (exam (a ++ m) b c) s)
             (a ++ m) b c eq_refl).
  destruct (contribution "short_answer" v) as [sa|e]; cbn [fst snd].
  2:{ eexists. rewrite !app_nil_r. reflexivity. }
  rewrite (merge_essay_run v
             (set_all_results (exam (a ++ m) (b ++ sa) c)
                (set_all_results (exam (a ++ m) b c) s))
             (a ++ m) (b ++ sa) c eq_refl).
  destruct (contribution "essay" v) as [es|e]; cbn [fst snd].
  2:{ eexists. rewrite !app_nil_r. reflexivity. }
  eexists. reflexivity.
Qed.

Lemma try_body_run (api_key : string) (batch : list string) (s : state)
    (a b c : list value) :
  all_results s = exam a b c ->
  let r := build_request prompt_template api_key batch in
  let o := batch_outcome create json_loads (requests s) r in
  exists res,
    try_body prompt_template create json_loads api_key batch s =
    (set_all_results
       (exam (a ++ (merged o).1.1) (b ++ (merged o).1.2) (c ++ (merged o).2))
       (add_request r s), res).
Proof.
  intros Hd r o. subst o r.
  cbv [try_body batch_outcome call_endpoint lift mbind M_bind result_bind].
  set (r := build_request prompt_template api_key batch).
  assert (set_all_results (exam (a ++ []) (b ++ []) (c ++ [])) (add_request r s)
          = add_request r s) as Hraise.
  { rewrite !app_nil_r, <- Hd. destruct s; reflexivity. }
  destruct (create (requests s) r) as [cpl|e].
  2:{ eexists. cbn [merged fst snd]. rewrite Hraise. reflexivity. }
  destruct (first_content cpl) as [content|e].
  2:{ eexists. cbn [merged fst snd]. rewrite Hraise. reflexivity. }
  destruct (loads json_loads content) as [v|e].
  2:{ eexists. cbn [merged fst snd]. rewrite Hraise. reflexivity. }
  destruct (merges_run v (add_request r s) a b c Hd) as [res Hres].
  exists res. rewrite <- Hres. reflexivity.
Qed.

Lemma notify_run (cb : option callable) (msg : string) (s : state) :
  exists s',
    notify cb msg s = (s', Ok tt)
    /\ base64_images s' = base64_images s
    /\ all_results s' = all_results s
    /\ requests s' = requests s
    /\ (cb = None -> statuses s' = statuses s).
Proof.
  destruct cb as [f|]; eexists; (split; [reflexivity|]); cbn; auto.
  repeat split. discriminate.
Qed.

(** An iteration never raises; it sends one request and leaves the
    argument list alone. *)
Lemma loop_body_run (api_key : string) (cb : option callable)
    (total_pages i : nat) (s : state) (a b c : list value) :
  all_results s = exam a b c ->
  let r := request_of api_key (base64_images s) i in
  let o := batch_outcome create json_loads (requests s) r in
  exists s',
    loop_body prompt_template create json_loads api_key cb total_pages i s = (s', Ok tt)
    /\ base64_images s' = base64_images s
    /\ all_results s' =
       exam (a ++ (merged o).1.1) (b ++ (merged o).1.2) (c ++ (merged o).2)
    /\ requests s' = (requests s ++ [r])%list
    /\ (cb = None -> statuses s' = statuses s).
Proof.
  intros Hd r o. unfold loop_body.
  unfold mbind at 1 2. unfold M_bind at 1 2. unfold gets.
  destruct (notify_run cb (processing_message i total_pages) s)
    as (s1 & -> & Hi1 & Hr1 & Hq1 & Hs1).
  unfold try_except.
  destruct (try_body_run api_key (slice (base64_images s) i (i + batch_size)) s1 a b c)
    as [res Htry]; [congruence|].
  rewrite Htry, Hq1. fold (request_of api_key (base64_images s) i). fold r. fold o.
  destruct res as [[]|e].
  - eexists. split; [reflexivity|]. cbn. rewrite Hq1. repeat split; auto.
  - match goal with |- context [notify cb ?m ?st] =>
      destruct (notify_run cb m st) as (s2 & -> & Hi2 & Hr2 & Hq2 & Hs2) end.
    eexists. split; [reflexivity|]. rewrite Hi2, Hr2, Hq2. cbn. rewrite Hq1.
    repeat split; auto. intros Hcb. rewrite Hs2 by assumption. cbn. auto.
Qed.

(** The loop over any list of indices, from any state whose
    [all_results] has the three lists. *)
Lemma loop_run (api_key : string) (cb : option callable) (total_pages : nat)
    (idx : list nat) :
  forall (s : state) (a b c : list value),
  all_results s = exam a b c ->
  let rs := map (request_of api_key (base64_images s)) idx in
  let os := outcomes create json_loads (requests s) rs in
  exists s',
    for_each idx (loop_body prompt_template create json_loads api_key cb total_pages) s
    = (s', Ok tt)
    /\ base64_images s' = base64_images s
    /\ all_results s' =
       exam (a ++ concat (map (fun o => (merged o).1.1) os))
            (b ++ concat (map (fun o => (merged o).1.2) os))
            (c ++ concat (map (fun o => (merged o).2) os))
    /\ requests s' = (requests s ++ rs)%list
    /\ (cb = None -> statuses s' = statuses s).
Proof.
  induction idx as [|i rest IH]; intros s a b c Hd; cbn zeta.
  - exists s. cbn. rewrite !app_nil_r. auto.
  - cbn [for_each map outcomes concat]. unfold mbind, M_bind.
    destruct (loop_body_run api_key cb total_pages i s a b c Hd)
      as (s1 & -> & Hi1 & Hr1 & Hq1 & Hs1).
    destruct (IH s1 _ _ _ Hr1) as (s2 & -> & Hi2 & Hr2 & Hq2 & Hs2).
    exists s2. split; [reflexivity|].
    rewrite Hi2, Hr2, Hq2, Hi1, Hq1, <- !app_assoc.
    repeat split; auto. intros Hcb. rewrite Hs2, Hs1; auto.
Qed.

(** The whole function: it returns, and what it returns, sends and
    leaves behind. *)
Lemma generate_run (api_key : string) (cb : option callable) (s : state) :
  let rs := map (build_request prompt_template api_key) (batches (base64_images s)) in
  let os := outcomes create json_loads (requests s) rs in
  let d := exam (concat (map (merged_for "mcq") os))
                (concat (map (merged_for "short_answer") os))
                (concat (map (merged_for "essay") os)) in
  exists s',
    generate_exam_with_groq prompt_template create json_loads api_key cb s = (s', Ok d)
    /\ base64_images s' = base64_images s
    /\ all_results s' = d
    /\ requests s' = (requests s ++ rs)%list
    /\ (cb = None -> statuses s' = statuses s).
Proof.
  cbn zeta. unfold generate_exam_with_groq.
  unfold mbind at 1 2 3. unfold M_bind at 1 2 3. unfold modify at 1. unfold gets at 1.
  set (s0 := set_all_results empty_results s).
  destruct (loop_run api_key cb (length (base64_images s0))
              (range 0 (length (base64_images s0)) batch_size) s0 [] [] [] eq_refl)
    as (s' & Hrun & Hi & Hr & Hq & Hs).
  rewrite Hrun. unfold gets.
  change (base64_images s0) with (base64_images s) in *.
  change (requests s0) with (requests s) in *.
  change (statuses s0) with (statuses s) in *.
  assert (map (request_of api_key (base64_images s))
            (range 0 (length (base64_images s)) batch_size)
          = map (build_request prompt_template api_key) (batches (base64_images s)))
    as Hrs.
  { unfold batches, request_of. rewrite map_map. reflexivity. }
  rewrite Hrs in Hr, Hq.
  exists s'. rewrite Hr, Hi, Hq. repeat split; auto.
Qed.

End Run.

(** ** The exam generator *)

Section Generator.

Variable prompt_template : string.
Variable create : list request -> request -> result completion.
Variable json_loads : string -> result value.

Let generate := generate_exam_with_groq prompt_template create json_loads.
Let body := loop_body prompt_template create json_loads.
Let request_for := build_request prompt_template.

(** C1: the images are cut, in order, into [ceil(n/5)] batches of five
    (the last one shorter); batch [k], counted from 1, is pages
    [(k-1)*5+1] through [min(k*5, n)]; page [k*5+j+1] sits at place [j] of
    batch [k+1] and nowhere else; and the model is called once per batch,
    in that order, the content of the call for a batch being the prompt
    followed by the pages of that batch, in page order, each as a PNG
    data URL. *)
Theorem generate_exam_batches (api_key : string) (cb : option callable) (s : state) :
  let imgs := base64_images s in
  let n := length imgs in
  requests (generate api_key cb s).1
    = (requests s ++ map (request_for api_key) (batches imgs))%list
  /\ length (batches imgs) = (n + 4) / 5
  /\ n <= 5 * ((n + 4) / 5) < n + 5
  /\ (forall k, 1 <= k <= (n + 4) / 5 ->
        batches imgs !! (k - 1)
        = Some (pages imgs ((k - 1) * 5 + 1) (Nat.min (k * 5) n)))
  /\ (forall k j,
        batches imgs !! k ≫= (fun b => b !! j)
        = if decide (j < 5) then imgs !! (k * 5 + j) else None)
  /\ concat (batches imgs) = imgs
  /\ map req_content (drop (length (requests s)) (requests (generate api_key cb s).1))
     = map (fun b => Text prompt_template
                     :: map (fun img => ImageUrl ("data:image/png;base64," +:+ img)) b)
           (batches imgs).
Proof.
  cbn zeta.
  assert (requests (generate api_key cb s).1
          = (requests s ++ map (request_for api_key) (batches (base64_images s)))%list)
    as Hsent.
  { destruct (generate_run prompt_template create json_loads api_key cb s)
      as (s' & Hrun & _ & _ & Hq & _).
    subst generate. cbn zeta in Hrun. rewrite Hrun. exact Hq. }
  repeat split.
  - exact Hsent.
  - apply batches_length.
  - apply ceil5_bounds.
  - apply ceil5_bounds.
  - intros k [Hk1 Hk2]. rewrite batches_lookup by lia.
    unfold pages. f_equal.
    replace ((k - 1) * 5 + 1 - 1) with ((k - 1) * 5) by lia.
    replace ((k - 1) * 5 + 5) with (k * 5) by lia.
    apply slice_clamp.
  - apply batches_page.
  - apply concat_batches.
  - rewrite Hsent, drop_app_length, map_map. reflexivity.
Qed.

Lemma try_body_raise (api_key : string) (batch : list string) (s : state)
    (e : Exception) :
  batch_outcome create json_loads (requests s) (request_for api_key batch) = Raise e ->
  try_body prompt_template create json_loads api_key batch s
  = (add_request (request_for api_key batch) s, Raise e).
Proof.
  subst request_for.
  cbv [try_body batch_outcome call_endpoint lift mbind M_bind result_bind].
  destruct (create _ _) as [cpl|e1]; [|congruence].
  destruct (first_content cpl) as [content|e2]; [|congruence].
  destruct (loads json_loads content) as [v|e3]; [discriminate|congruence].
Qed.

(** C2: when the model call or the JSON parse of a batch raises, the
    iteration ends normally with [all_results] as it was before (the
    request was sent, the argument list is untouched); and whatever the
    endpoint answers, the function returns normally after sending the
    request of every batch. *)
Theorem failed_batch_is_skipped (api_key : string) (cb : option callable) :
  (forall (total_pages i : nat) (s : state) (e : Exception),
      let r := request_for api_key (slice (base64_images s) i (i + batch_size)) in
      batch_outcome create json_loads (requests s) r = Raise e ->
      exists s',
        body api_key cb total_pages i s = (s', Ok tt)
        /\ all_results s' = all_results s
        /\ base64_images s' = base64_images s
        /\ requests s' = (requests s ++ [r])%list)
  /\ (forall s : state,
      exists s' d,
        generate api_key cb s = (s', Ok d)
        /\ requests s'
           = (requests s ++ map (request_for api_key) (batches (base64_images s)))%list).
Proof.
  split.
  - intros total_pages i s e r Hfail. subst body. unfold loop_body.
    unfold mbind at 1 2. unfold M_bind at 1 2. unfold gets.
    destruct (notify_run cb (processing_message i total_pages) s)
      as (s1 & -> & Hi1 & Hr1 & Hq1 & _).
    unfold try_except. rewrite <- Hq1 in Hfail.
    rewrite (try_body_raise api_key _ s1 e Hfail).
    match goal with |- context [notify cb ?m ?st] =>
      destruct (notify_run cb m st) as (s2 & -> & Hi2 & Hr2 & Hq2 & _) end.
    exists s2. split; [reflexivity|].
    rewrite Hi2, Hr2, Hq2. cbn. rewrite Hq1. auto.
  - intros s.
    destruct (generate_run prompt_template create json_loads api_key cb s)
      as (s' & Hrun & _ & _ & Hq & _).
    eexists s', _. split; [exact Hrun | exact Hq].
Qed.

(** C4: for every argument list, endpoint, parser and callback, the
    function returns, and what it returns is a dict with exactly the
    keys [mcq], [short_answer] and [essay], each bound to a list. *)
Theorem generate_exam_shape (api_key : string) (cb : option callable) (s : state) :
  exists s' d,
    generate api_key cb s = (s', Ok d)
    /\ dict_keys d = ["mcq"; "short_answer"; "essay"]
    /\ Forall (fun kv => exists l, kv.2 = VList l) d.
Proof.
  destruct (generate_run prompt_template create json_loads api_key cb s)
    as (s' & Hrun & _).
  eexists s', _. split; [exact Hrun|]. split; [reflexivity|].
  repeat constructor; eexists; reflexivity.
Qed.

(** C8: on an empty list the function returns the three empty lists;
    the endpoint receives nothing and the callback is not called. *)
Theorem generate_exam_empty (api_key : string) (cb : option callable)
    (d : dict) (sent : list request) (shown : list string) :
  generate api_key cb (mkState [] d sent shown)
  = (mkState [] [("mcq", VList []); ("short_answer", VList []); ("essay", VList [])]
       sent shown,
     Ok [("mcq", VList []); ("short_answer", VList []); ("essay", VList [])]).
Proof.
  subst generate. unfold generate_exam_with_groq, mbind, M_bind, modify, gets.
  cbn [base64_images set_all_results length].
  change (range 0 0 batch_size) with (@nil nat).
  reflexivity.
Qed.

End Generator.

(** ** What a response contributes *)

Lemma contribution_well_shaped (key : string) (d : dict) :
  list_or_missing key d = true ->
  contribution key (VDict d) = Ok (questions key d).
Proof.
  unfold list_or_missing, contribution, questions, py_in, py_getitem, dict_has.
  destruct (dict_lookup key d) as [[]|]; try discriminate; reflexivity.
Qed.

Lemma merged_well_shaped (v : value) :
  well_shaped v = true ->
  merged (Ok v) =
  (response_questions "mcq" v, response_questions "short_answer" v,
   response_questions "essay" v).
Proof.
  destruct v as [| | | | |l|d]; try discriminate. cbn [well_shaped].
  intros [[H1 H2]%andb_prop H3]%andb_prop. unfold merged.
  rewrite !contribution_well_shaped by assumption. reflexivity.
Qed.

Lemma merged_for_raise (key : string) (e : Exception) : merged_for key (Raise e) = [].
Proof. unfold merged_for. repeat case_match; reflexivity. Qed.

Lemma merged_for_well_shaped (key : string) (v : value) :
  exam_key key -> well_shaped v = true ->
  merged_for key (Ok v) = response_questions key v.
Proof.
  intros Hkey Hv. unfold merged_for. rewrite (merged_well_shaped v Hv).
  destruct Hkey as [->| [->| ->]]; reflexivity.
Qed.

Lemma questions_exam (key : string) (f : string -> list value) :
  exam_key key ->
  questions key (exam (f "mcq") (f "short_answer") (f "essay")) = f key.
Proof. intros [->| [->| ->]]; reflexivity. Qed.

Lemma merged_concat_parsed (key : string) (os : list (result value)) :
  exam_key key ->
  Forall (fun v => well_shaped v = true) (parsed os) ->
  concat (map (merged_for key) os) = concat (map (response_questions key) (parsed os)).
Proof.
  intros Hkey. induction os as [|[v|e] os IH]; cbn [parsed map concat]; intros Hall.
  - reflexivity.
  - inversion Hall as [|? ? Hv Hrest]; subst.
    rewrite (merged_for_well_shaped key v Hkey Hv). f_equal. apply IH, Hrest.
  - rewrite merged_for_raise. apply IH, Hall.
Qed.



Lemma outcomes_history (create create' : list request -> request -> result completion)
    (json_loads : string -> result value) (rs : list request) :
  forall h h' : list request,
  (forall (later : list request) (r : request),
      create (h ++ later)%list r = create' (h' ++ later)%list r) ->
  outcomes create json_loads h rs = outcomes create' json_loads h' rs.
Proof.
  induction rs as [|r rest IH]; intros h h' Hsame; cbn [outcomes].
  - reflexivity.
  - f_equal.
    + unfold batch_outcome. specialize (Hsame [] r). rewrite !app_nil_r in Hsame.
      rewrite Hsame. reflexivity.
    + apply IH. intros later r'. rewrite <- !app_assoc. apply Hsame.
Qed.

Section Merging.

Variable prompt_template : string.
Variable create : list request -> request -> result completion.
Variable json_loads : string -> result value.

Let generate := generate_exam_with_groq prompt_template create json_loads.

(** The outcomes of the batches of a run started in [s]. *)
Let run_outcomes (api_key : string) (s : state) : list (result value) :=
  outcomes create json_loads (requests s)
    (map (build_request prompt_template api_key) (batches (base64_images s))).

(** C3, amended: when every response that parsed is an object whose
    values under [mcq], [short_answer] and [essay] are lists (or
    missing), the list returned under each of the three keys is the
    concatenation, in batch order, of the lists the parsed responses hold
    under that key, a missing key giving nothing. *)
Theorem merge_is_concatenation (api_key : string) (cb : option callable)
    (s : state) (key : string) :
  exam_key key ->
  Forall (fun v => well_shaped v = true) (parsed (run_outcomes api_key s)) ->
  exists s' d,
    generate api_key cb s = (s', Ok d)
    /\ questions key d
       = concat (map (response_questions key) (parsed (run_outcomes api_key s))).
Proof.
  intros Hkey Hshape.
  destruct (generate_run prompt_template create json_loads api_key cb s)
    as (s' & Hrun & _).
  eexists s', _. split; [exact Hrun|].
  rewrite (questions_exam key (fun k => concat (map (merged_for k) _)) Hkey).
  apply merged_concat_parsed; assumption.
Qed.


(** The list passed as [base64_images] is the same after the call; and
    two calls on equal lists, answered alike by the endpoint, return the
    same dict and send the same requests, whatever earlier calls have
    left behind. *)
Lemma generate_frame (api_key : string) (cb : option callable) (s : state) :
  base64_images (generate api_key cb s).1 = base64_images s.
Proof.
  destruct (generate_run prompt_template create json_loads api_key cb s)
    as (s' & Hrun & Hi & _).
  subst generate. cbn zeta in Hrun. rewrite Hrun. exact Hi.
Qed.

Lemma generate_inputs_only (api_key : string) (cb : option callable) (s1 s2 : state) :
  base64_images s1 = base64_images s2 ->
  (forall later r, create (requests s1 ++ later)%list r
                   = create (requests s2 ++ later)%list r) ->
  (generate api_key cb s1).2 = (generate api_key cb s2).2
  /\ drop (length (requests s1)) (requests (generate api_key cb s1).1)
     = drop (length (requests s2)) (requests (generate api_key cb s2).1).
Proof.
  intros Himgs Hsame.
  destruct (generate_run prompt_template create json_loads api_key cb s1)
    as (s1' & Hrun1 & _ & _ & Hq1 & _).
  destruct (generate_run prompt_template create json_loads api_key cb s2)
    as (s2' & Hrun2 & _ & _ & Hq2 & _).
  subst generate. cbn zeta in Hrun1, Hrun2. rewrite Hrun1, Hrun2. cbn [fst snd].
  rewrite Hq1, Hq2, !drop_app_length, Himgs.
  rewrite (outcomes_history create create json_loads _ _ _ Hsame).
  split; reflexivity.
Qed.

End Merging.

(** ** The report builder *)

Lemma Forall_zip_snd {A B} (P : B -> Prop) (l : list B) :
  Forall P l -> forall xs : list A, Forall (fun xq => P xq.2) (zip xs l).
Proof.
  induction 1 as [|q l Hq _ IH]; intros [|x xs]; cbn; constructor; auto.
Qed.

Lemma keeps_bind {A B} (m : M report_state A) (f : A -> M report_state B) :
  keeps_exam_json m -> (forall a, keeps_exam_json (f a)) -> keeps_exam_json (m ≫= f).
Proof.
  intros Hm Hf s. unfold mbind, M_bind. specialize (Hm s).
  destruct (m s) as [s1 [a|e]]; cbn [fst] in *.
  - rewrite Hf. exact Hm.
  - exact Hm.
Qed.

Lemma keeps_for_each {A} (l : list A) (body : A -> M report_state unit) :
  (forall x, keeps_exam_json (body x)) -> keeps_exam_json (for_each l body).
Proof.
  intros Hbody. induction l as [|x l IH]; cbn [for_each].
  - intros s. reflexivity.
  - apply keeps_bind; [apply Hbody | intros _; exact IH].
Qed.

Lemma keeps_lift {A} (r : result A) : keeps_exam_json (lift r).
Proof. intros s. reflexivity. Qed.

Lemma keeps_gets {A} (f : report_state -> A) : keeps_exam_json (gets f).
Proof. intros s. reflexivity. Qed.

Lemma keeps_append (f : flowable) : keeps_exam_json (append_story f).
Proof. intros s. reflexivity. Qed.

Lemma keeps_mret {A} (a : A) : keeps_exam_json (mret a).
Proof. intros s. reflexivity. Qed.

Lemma keeps_add_paragraph (markup_error : string -> option Exception)
    (text : string) (st : style) :
  keeps_exam_json (add_paragraph markup_error text st).
Proof.
  unfold add_paragraph. apply keeps_bind; [apply keeps_lift | intros p; apply keeps_append].
Qed.

Create HintDb frame.
#[local] Hint Resolve keeps_lift keeps_gets keeps_append keeps_mret
  keeps_add_paragraph : frame.

Ltac frame_step :=
  match goal with
  | |- keeps_exam_json (add_paragraph _ _ _) => apply keeps_add_paragraph
  | |- keeps_exam_json (_ ≫= _) => apply keeps_bind; [|intros ?]
  | |- keeps_exam_json (for_each _ _) => apply keeps_for_each; intros ?
  | |- keeps_exam_json (if ?b then _ else _) => destruct b
  | |- keeps_exam_json _ => solve [auto with frame]
  end.

Lemma mcq_item_object (q : value) : mcq_item q = true -> is_object q = true.
Proof. destruct q; try discriminate; reflexivity. Qed.

Section ReportFrame.

Variable markup_error : string -> option Exception.
Variable repr : value -> string.
Variable build : list flowable -> result (list Byte.byte).

Lemma numbered_line_keeps (field : string) (i : nat) (q : value) :
  keeps_exam_json (numbered_line markup_error repr field i q).
Proof. unfold numbered_line. repeat frame_step. Qed.

Lemma option_lines_keeps (q : value) :
  keeps_exam_json (option_lines markup_error repr q).
Proof. unfold option_lines. repeat frame_step. Qed.

Lemma section_of_keeps (key heading : string)
    (item : nat -> value -> M report_state unit) (after : M report_state unit) :
  (forall i q, keeps_exam_json (item i q)) -> keeps_exam_json after ->
  keeps_exam_json (section_of markup_error key heading item after).
Proof. intros Hitem Hafter. unfold section_of. repeat frame_step; auto. Qed.

Lemma build_story_keeps : keeps_exam_json (build_story markup_error repr).
Proof.
  unfold build_story.
  repeat first
    [ apply section_of_keeps; [intros ? ?|]
    | apply numbered_line_keeps
    | apply option_lines_keeps
    | frame_step ].
Qed.

Lemma create_pdf_report_keeps :
  keeps_exam_json (create_pdf_report markup_error repr build).
Proof.
  unfold create_pdf_report.
  apply keeps_bind; [intros s; reflexivity | intros _].
  apply keeps_bind; [apply build_story_keeps | intros _].
  repeat frame_step.
Qed.

End ReportFrame.

(** ** The story of the report *)

Section Appending.

Variable markup_error : string -> option Exception.

Lemma paragraph_accepted (text : string) (st : style) :
  accepted markup_error text = true ->
  paragraph markup_error text st = Ok (Paragraph text st).
Proof.
  unfold accepted, paragraph. destruct (plain text); [reflexivity|].
  destruct (markup_error text); [discriminate | reflexivity].
Qed.

Lemma appends_eq (ej : value) (m : M report_state unit) (f1 f2 : list flowable) :
  appends markup_error ej m f1 -> f1 = f2 -> appends markup_error ej m f2.
Proof. intros H <-. exact H. Qed.

Lemma appends_bind (ej : value) (m k : M report_state unit) (f1 f2 : list flowable) :
  appends markup_error ej m f1 -> appends markup_error ej k f2 ->
  appends markup_error ej (m;; k) (f1 ++ f2).
Proof.
  intros Hm Hk s Hs [H1 H2]%Forall_app. unfold mbind, M_bind. rewrite (Hm s Hs H1).
  rewrite (Hk (mkReport ej (story s ++ f1)) eq_refl H2). cbn [story].
  rewrite app_assoc. reflexivity.
Qed.

Lemma appends_mret (ej : value) : appends markup_error ej (mret tt) [].
Proof. intros [e st] Hs _. cbn in *. subst. rewrite app_nil_r. reflexivity. Qed.

Lemma appends_append (ej : value) (f : flowable) :
  appends markup_error ej (append_story f) [f].
Proof. intros [e st] Hs _. cbn in *. subst. reflexivity. Qed.

Lemma appends_paragraph (ej : value) (text : string) (st : style) :
  appends markup_error ej (add_paragraph markup_error text st) [Paragraph text st].
Proof.
  intros [e story0] Hs Hacc. cbn in Hs. subst.
  inversion Hacc as [|? ? Htext _]; subst. cbn [accepted_flowable] in Htext.
  unfold add_paragraph, mbind, M_bind, lift.
  rewrite (paragraph_accepted text st Htext). reflexivity.
Qed.

Lemma appends_gets_exam (ej : value) (f : value -> M report_state unit)
    (fl : list flowable) :
  appends markup_error ej (f ej) fl -> appends markup_error ej (gets exam_json ≫= f) fl.
Proof.
  intros Hf s Hs Hacc. unfold mbind, M_bind, gets. rewrite Hs. apply Hf; assumption.
Qed.

Lemma appends_lift {A} (ej : value) (r : result A) (a : A)
    (f : A -> M report_state unit) (fl : list flowable) :
  r = Ok a -> appends markup_error ej (f a) fl -> appends markup_error ej (lift r ≫= f) fl.
Proof.
  intros -> Hf s Hs Hacc. unfold mbind, M_bind, lift. apply Hf; assumption.
Qed.

Lemma appends_for_each {A} (ej : value) (l : list A) (body : A -> M report_state unit)
    (flow : A -> list flowable) :
  Forall (fun x => appends markup_error ej (body x) (flow x)) l ->
  appends markup_error ej (for_each l body) (concat (map flow l)).
Proof.
  induction 1 as [|x l Hx _ IH]; cbn [for_each map concat].
  - apply appends_mret.
  - apply appends_bind; assumption.
Qed.

Variable repr : value -> string.

Lemma numbered_line_appends (ej : value) (field : string) (i : nat) (q : value) :
  is_object q = true ->
  appends markup_error ej (numbered_line markup_error repr field i q)
    [line repr field (i, q)].
Proof.
  destruct q as [| | | | | |d]; try discriminate. intros _.
  unfold numbered_line, line, field_or_na, py_get. cbn [fst snd].
  destruct (dict_lookup field d);
    (eapply appends_lift; [reflexivity | apply appends_paragraph]).
Qed.

Lemma option_lines_appends (ej : value) (q : value) :
  mcq_item q = true ->
  appends markup_error ej (option_lines markup_error repr q) (option_flowables repr q).
Proof.
  destruct q as [| | | | | |d]; try discriminate. cbn [mcq_item]. intros Hopt.
  unfold option_lines, option_flowables, py_get.
  destruct (dict_lookup "options" d) as [v|].
  - destruct (py_iter v) as [opts|e] eqn:Hiter; [|discriminate].
    eapply appends_lift; [reflexivity|].
    eapply appends_lift; [exact Hiter|].
    assert (map (fun opt => Paragraph ("• " +:+ format repr opt) option_style) opts
            = concat (map (fun opt => [Paragraph ("• " +:+ format repr opt) option_style])
                          opts)) as ->.
    { clear. induction opts as [|o opts IH]; [reflexivity|]. cbn. f_equal. exact IH. }
    apply appends_for_each, Forall_forall. intros opt _. apply appends_paragraph.
  - eapply appends_lift; [reflexivity|].
    eapply appends_lift; [reflexivity|]. apply appends_mret.
Qed.

Lemma section_of_appends (d : dict) (item_ok : value -> bool) (key heading : string)
    (item : nat -> value -> M report_state unit) (after : M report_state unit)
    (flow : nat * value -> list flowable) (fa : list flowable) :
  list_of item_ok key d = true ->
  (forall i q, item_ok q = true -> appends markup_error (VDict d) (item i q) (flow (i, q))) ->
  appends markup_error (VDict d) after fa ->
  appends markup_error (VDict d) (section_of markup_error key heading item after)
    (section_flow heading (questions key d) flow fa).
Proof.
  unfold list_of, questions. intros Hlist Hitem Hafter. unfold section_of.
  apply appends_gets_exam. unfold py_get.
  destruct (dict_lookup key d) as [v|] eqn:Hkey.
  2:{ eapply appends_lift; [reflexivity|]. apply appends_mret. }
  destruct v as [| | | | |l|]; try discriminate.
  eapply appends_lift; [reflexivity|].
  destruct l as [|q0 l0] eqn:Hl; [apply appends_mret|]. rewrite <- Hl in *.
  replace (truthy (VList l)) with true by (rewrite Hl; reflexivity).
  replace (section_flow heading l flow fa)
    with ([Paragraph heading section_style]
          ++ (concat (map flow (enumerate l)) ++ fa))%list
    by (rewrite Hl; reflexivity).
  apply appends_bind; [apply appends_paragraph|].
  apply appends_gets_exam.
  eapply appends_lift; [unfold py_getitem; rewrite Hkey; reflexivity|].
  eapply appends_lift; [reflexivity|].
  apply appends_bind; [|exact Hafter].
  apply appends_for_each. unfold enumerate.
  apply (Forall_impl
           (fun iq : nat * value =>
              forall i, appends markup_error (VDict d) (item i iq.2) (flow (i, iq.2))));
    [|intros [i q] Hq; exact (Hq i)].
  apply (Forall_zip_snd
           (fun q => forall i, appends markup_error (VDict d) (item i q) (flow (i, q)))).
  apply Forall_forall. intros q Hq i. apply Hitem.
  rewrite forallb_forall in Hlist. apply Hlist, list_elem_of_In, Hq.
Qed.

Lemma build_story_appends (d : dict) :
  exam_of_objects (VDict d) = true ->
  appends markup_error (VDict d) (build_story markup_error repr)
    (questions_part repr (questions "mcq" d) (questions "short_answer" d)
       (questions "essay" d)
     ++ PageBreak
        :: answers_part repr (questions "mcq" d) (questions "short_answer" d)
             (questions "essay" d)).
Proof.
  cbn [exam_of_objects]. intros [[Hm Hs]%andb_prop He]%andb_prop.
  unfold build_story, questions_part, answers_part.
  eapply appends_eq.
  { repeat first
      [ apply appends_paragraph
      | apply appends_append
      | eapply appends_bind ].
    - apply (section_of_appends d mcq_item "mcq" _ _ _
               (fun iq => line repr "question" iq
                          :: option_flowables repr iq.2 ++ [Spacer 1 10]) []);
        [exact Hm| |apply appends_mret].
      intros i q Hq. eapply appends_eq.
      { eapply appends_bind; [apply numbered_line_appends, mcq_item_object, Hq|].
        eapply appends_bind; [apply option_lines_appends, Hq|apply appends_append]. }
      reflexivity.
    - apply (section_of_appends d is_object "short_answer" _ _ _
               (fun iq => [line repr "question" iq; Spacer 1 10]) []);
        [exact Hs| |apply appends_mret].
      intros i q Hq. eapply appends_eq.
      { eapply appends_bind; [apply numbered_line_appends, Hq|apply appends_append]. }
      reflexivity.
    - apply (section_of_appends d is_object "essay" _ _ _
               (fun iq => [line repr "question" iq; Spacer 1 10]) []);
        [exact He| |apply appends_mret].
      intros i q Hq. eapply appends_eq.
      { eapply appends_bind; [apply numbered_line_appends, Hq|apply appends_append]. }
      reflexivity.
    - apply (section_of_appends d mcq_item "mcq" _ _ _
               (fun iq => [line repr "answer" iq]) [Spacer 1 15]);
        [exact Hm| |apply appends_append].
      intros i q Hq. apply numbered_line_appends, mcq_item_object, Hq.
    - apply (section_of_appends d is_object "short_answer" _ _ _
               (fun iq => [line repr "answer" iq]) [Spacer 1 15]);
        [exact Hs| |apply appends_append].
      intros i q Hq. apply numbered_line_appends, Hq.
    - apply (section_of_appends d is_object "essay" _ _ _
               (fun iq => [line repr "key_points_to_cover" iq]) []);
        [exact He| |apply appends_mret].
      intros i q Hq. apply numbered_line_appends, Hq. }
  cbn [app]. rewrite <- !app_assoc. reflexivity.
Qed.

Variable build : list flowable -> result (list Byte.byte).

Lemma create_pdf_report_of_story (ej : value) (fl old : list flowable) :
  appends markup_error ej (build_story markup_error repr) fl ->
  all_accepted markup_error fl ->
  create_pdf_report markup_error repr build (mkReport ej old)
  = (mkReport ej fl, build fl).
Proof.
  intros Hstory Hacc. unfold create_pdf_report, mbind, M_bind, modify. cbn [exam_json].
  rewrite (Hstory (mkReport ej []) eq_refl Hacc). reflexivity.
Qed.

End Appending.

Lemma enumerate_from_lookup {A} (l : list A) (i : nat) (q : A) :
  forall start, l !! i = Some q -> In (start + i, q) (zip (seq start (length l)) l).
Proof.
  revert i. induction l as [|x l IH]; intros i start Hq; [discriminate|].
  destruct i as [|i]; cbn in *.
  - injection Hq as ->. left. f_equal. lia.
  - right. replace (start + S i) with (S start + i) by lia. apply IH, Hq.
Qed.

Lemma enumerate_lookup {A} (l : list A) (i : nat) (q : A) :
  l !! i = Some q -> In (i, q) (enumerate l).
Proof. intros Hq. apply (enumerate_from_lookup l i q 0 Hq). Qed.

Lemma in_section_flow (heading : string) (l : list value)
    (flow : nat * value -> list flowable) (fa : list flowable)
    (i : nat) (q : value) (f : flowable) :
  l !! i = Some q -> In f (flow (i, q)) -> In f (section_flow heading l flow fa).
Proof.
  intros Hq Hf. unfold section_flow. destruct l as [|q0 l0] eqn:Hl; [discriminate|].
  rewrite <- Hl in *. right. apply in_or_app. left.
  apply in_concat. exists (flow (i, q)). split; [|exact Hf].
  apply in_map, enumerate_lookup, Hq.
Qed.

Section ReportDefaults.

Variable markup_error : string -> option Exception.
Variable repr : value -> string.
Variable build : list flowable -> result (list Byte.byte).

Lemma line_of_missing_field (field : string) (i : nat) (dq : dict) :
  dict_lookup field dq = None ->
  line repr field (i, VDict dq)
  = Paragraph (str_of_nat (i + 1) +:+ ". N/A") question_style.
Proof. intros Hmiss. unfold line, field_or_na. cbn [fst snd]. rewrite Hmiss. reflexivity. Qed.

(** C9, amended: on an [exam_json] whose question lists hold objects,
    whatever fields these have or lack, and when the PDF library accepts
    the paragraph texts as markup, [create_pdf_report] builds the whole
    story written out here and hands it to the library's build; in that
    story an item that lacks [question], [answer] or
    [key_points_to_cover] has the line [N/A] under its number, and an
    item that lacks [options] has no option line.  The display, on the
    same items, raises [KeyError] on a missing [question] and on a
    missing [options]. *)
Theorem report_defaults_where_display_raises :
  (forall (d : dict) (old : list flowable),
      exam_of_objects (VDict d) = true ->
      let st :=
        (questions_part repr (questions "mcq" d) (questions "short_answer" d)
           (questions "essay" d)
         ++ PageBreak
            :: answers_part repr (questions "mcq" d) (questions "short_answer" d)
                 (questions "essay" d))%list in
      all_accepted markup_error st ->
      create_pdf_report markup_error repr build (mkReport (VDict d) old)
      = (mkReport (VDict d) st, build st)
      /\ forall (key field : string) (i : nat) (dq : dict),
           report_field key field ->
           questions key d !! i = Some (VDict dq) ->
           dict_lookup field dq = None ->
           In (Paragraph (str_of_nat (i + 1) +:+ ". N/A") question_style) st)
  /\ (forall (dq : dict),
        dict_lookup "options" dq = None -> option_flowables repr (VDict dq) = [])
  /\ (forall (i : nat) (d : dict) (screen : list widget),
        dict_lookup "question" d = None ->
        show_mcq repr i (VDict d) screen = (screen, Raise (KeyError "question")))
  /\ (forall (i : nat) (d : dict) (screen : list widget) (text : value),
        dict_lookup "question" d = Some text ->
        dict_lookup "options" d = None ->
        show_mcq repr i (VDict d) screen
        = ((screen ++ [Write ("**" +:+ str_of_nat (i + 1) +:+ ". "
                              +:+ format repr text +:+ "**")])%list,
           Raise (KeyError "options"))).
Proof.
  split; [|split; [|split]].
  - intros d old Hd st Hacc. split.
    + apply create_pdf_report_of_story; [|exact Hacc].
      apply build_story_appends, Hd.
    + intros key field i dq Hfield Hq Hmiss.
      rewrite <- (line_of_missing_field field i dq Hmiss).
      subst st. unfold questions_part, answers_part.
      destruct Hfield as [[[->|[->| ->]] ->]|[[[->| ->] ->]|[-> ->]]];
        match goal with
        | |- In (line repr ?f _) _ =>
            match goal with
            | |- context [section_flow ?h (questions ?k d) ?flow ?fa] =>
                lazymatch flow with
                | context [line repr f] =>
                    lazymatch type of Hq with
                    | questions k d !! _ = _ =>
                        pose proof (in_section_flow h (questions k d) flow fa i
                                      (VDict dq) (line repr f (i, VDict dq)) Hq
                                      (or_introl eq_refl)) as Hin
                    end
                end
            end
        end;
        rewrite ?in_app_iff; cbn [In]; rewrite ?in_app_iff; tauto.
  - intros dq Hmiss. unfold option_flowables, py_get. rewrite Hmiss. reflexivity.
  - intros i d screen Hmiss.
    unfold show_mcq, show_question, py_getitem, mbind, M_bind, lift.
    rewrite Hmiss. reflexivity.
  - intros i d screen text Hq Hmiss.
    unfold show_mcq, show_question, py_getitem, mbind, M_bind, lift.
    rewrite Hq, Hmiss. reflexivity.
Qed.

End ReportDefaults.

(** ** The page renderer *)

Lemma range_from_step1 (fuel i n : nat) :
  n - i <= fuel -> range_from fuel i n 1 = seq i (n - i).
Proof.
  revert i. induction fuel as [|fuel IH]; intros i Hfuel; cbn [range_from].
  - replace (n - i) with 0 by lia. reflexivity.
  - destruct (Nat.ltb_spec i n) as [Hlt|Hge].
    + rewrite IH by lia. replace (n - i) with (S (n - (i + 1))) by lia.
      cbn [seq]. do 2 f_equal. lia.
    + replace (n - i) with 0 by lia. reflexivity.
Qed.

Section ConvertFacts.

Variable page : Type.
Variable render_png : page -> list Byte.byte.
Variable b64encode : list Byte.byte -> string.

Let image (p : page) : string := b64encode (render_png p).

Lemma convert_pages_run (doc : list page) (m : nat) :
  forall (i : nat) (acc : list string),
  i + m <= length doc ->
  for_each (seq i m) (convert_page page render_png b64encode doc) acc
  = ((acc ++ map image (take m (drop i doc)))%list, Ok tt).
Proof.
  induction m as [|m IH]; intros i acc Hlen.
  - cbn. rewrite app_nil_r. reflexivity.
  - destruct (lookup_lt_is_Some_2 doc i) as [p Hp]; [lia|].
    assert (convert_page page render_png b64encode doc i acc
            = ((acc ++ [image p])%list, Ok tt)) as Hstep.
    { unfold convert_page, load_page, mbind, M_bind, lift, modify.
      rewrite Hp. reflexivity. }
    cbn [seq for_each]. unfold mbind, M_bind. rewrite Hstep.
    rewrite IH by lia. rewrite (drop_S doc p i Hp). cbn [take map].
    rewrite <- app_assoc. reflexivity.
Qed.

(** C6: for a document of [n] pages the function returns a list of [n]
    images, the one at index [k] being the encoded rendering of page
    [k]. *)
Theorem convert_pdf_to_images_all_pages (doc : list page) :
  exists imgs,
    convert_pdf_to_images page render_png b64encode doc = Ok imgs
    /\ length imgs = length doc
    /\ forall k, imgs !! k = (fun p => b64encode (render_png p)) <$> doc !! k.
Proof.
  exists (map image doc). split; [|split].
  - unfold convert_pdf_to_images, range.
    rewrite range_from_step1 by lia. rewrite Nat.sub_0_r.
    rewrite (convert_pages_run doc (length doc) 0 []) by lia.
    cbn [drop app]. rewrite firstn_all. reflexivity.
  - apply length_map.
  - intros k. apply list_lookup_fmap.
Qed.

End ConvertFacts.

(** ** The text extraction loop *)

Lemma append_empty_r (s : string) : s +:+ "" = s.
Proof.
  induction s as [|c s IH]; [reflexivity|].
  change (String c (s +:+ "") = String c s). f_equal. exact IH.
Qed.

Lemma append_assoc (s t u : string) : (s +:+ t) +:+ u = s +:+ (t +:+ u).
Proof.
  induction s as [|c s IH]; [reflexivity|].
  change (String c ((s +:+ t) +:+ u) = String c (s +:+ (t +:+ u))). f_equal. exact IH.
Qed.

Lemma join_cons (t : string) (ts : list string) :
  String.concat "" (t :: ts) = t +:+ String.concat "" ts.
Proof. destruct ts; cbn; [rewrite append_empty_r|]; reflexivity. Qed.

Section ExtractFacts.

Variable pdf_page : Type.
Variable extract_text : pdf_page -> option string.

Lemma extract_from (pages : list pdf_page) :
  forall text : string,
  fold_left (extract_step pdf_page extract_text) pages text
  = text +:+ String.concat "" (kept_texts pdf_page extract_text pages).
Proof.
  induction pages as [|p pages IH]; intros text; cbn [fold_left kept_texts].
  - cbn. rewrite append_empty_r. reflexivity.
  - rewrite IH. unfold extract_step, has_text.
    destruct (extract_text p) as [t|]; [|reflexivity].
    destruct (String.eqb t ""); cbn [negb]; [reflexivity|].
    rewrite join_cons, append_assoc. reflexivity.
Qed.

(** C10: the extracted text is the per-page texts joined in page order
    with nothing in between, the pages giving [None] or the empty string
    left out; when every page is such a page the text is empty. *)
Theorem extracted_text_is_concatenation (pages : list pdf_page) :
  extract_document_text pdf_page extract_text pages
  = String.concat "" (kept_texts pdf_page extract_text pages)
  /\ kept_texts pdf_page extract_text pages
     = filter (fun t => t <> "") (omap extract_text pages)
  /\ ((forall p, In p pages -> extract_text p = None \/ extract_text p = Some "") ->
      extract_document_text pdf_page extract_text pages = "").
Proof.
  assert (kept_texts pdf_page extract_text pages
          = filter (fun t => t <> "") (omap extract_text pages)) as Hkept.
  { induction pages as [|p pages IH]; [reflexivity|].
    cbn [kept_texts omap list_omap]. destruct (extract_text p) as [t|]; [|exact IH].
    rewrite filter_cons. destruct (String.eqb_spec t "") as [->|Hne].
    - rewrite decide_False by (intros H; apply H; reflexivity). exact IH.
    - rewrite decide_True by exact Hne. f_equal. exact IH. }
  split; [|split].
  - unfold extract_document_text. rewrite extract_from. reflexivity.
  - exact Hkept.
  - intros Hnone. unfold extract_document_text. rewrite extract_from.
    replace (kept_texts pdf_page extract_text pages) with (@nil string); [reflexivity|].
    clear Hkept. induction pages as [|p pages IH]; [reflexivity|].
    cbn [kept_texts].
    destruct (Hnone p (or_introl eq_refl)) as [-> | ->]; cbn;
      apply IH; intros q Hq; apply Hnone; right; exact Hq.
Qed.

End ExtractFacts.

(** ** Inputs are left alone *)

Section Frame.

Variable prompt_template : string.
Variable create : list request -> request -> result completion.
Variable json_loads : string -> result value.
Variable markup_error : string -> option Exception.
Variable repr : value -> string.
Variable build : list flowable -> result (list Byte.byte).

Let generate := generate_exam_with_groq prompt_template create json_loads.
Let report := create_pdf_report markup_error repr build.

(** C7: the list passed as [base64_images] and the object passed as
    [exam_json] are the same after the call as before, whether the call
    returns or raises; and what a call returns (and sends) is fixed by
    its arguments and the answers of the outside alone: nothing an
    earlier call has left behind (its results, its story, its trace)
    changes it. *)
Theorem components_leave_inputs_alone :
  (forall api_key cb s, base64_images (generate api_key cb s).1 = base64_images s)
  /\ (forall s, exam_json (report s).1 = exam_json s)
  /\ (forall api_key cb s1 s2,
        base64_images s1 = base64_images s2 ->
        (forall later r, create (requests s1 ++ later)%list r
                         = create (requests s2 ++ later)%list r) ->
        (generate api_key cb s1).2 = (generate api_key cb s2).2
        /\ drop (length (requests s1)) (requests (generate api_key cb s1).1)
           = drop (length (requests s2)) (requests (generate api_key cb s2).1))
  /\ (forall s1 s2, exam_json s1 = exam_json s2 -> report s1 = report s2).
Proof.
  split; [|split; [|split]].
  - intros api_key cb s. apply generate_frame.
  - intros s. apply create_pdf_report_keeps.
  - intros api_key cb s1 s2. apply generate_inputs_only.
  - intros s1 s2 Hsame. subst report.
    unfold create_pdf_report, mbind, M_bind, modify. rewrite Hsame. reflexivity.
Qed.

End Frame.

(** ** Concrete runs *)

Example range_of_eleven_pages : range 0 11 batch_size = [0; 5; 10].
Proof. reflexivity. Qed.

Example batches_of_seven_pages :
  batches seven_pages
  = [["page1"; "page2"; "page3"; "page4"; "page5"]; ["page6"; "page7"]].
Proof. reflexivity. Qed.

Example statuses_when_the_endpoint_is_down :
  statuses (generate_exam_with_groq "prompt" endpoint_down (parser_giving VNone)
              "key" (Some Callable) (fresh seven_pages)).1
  = ["Processing batch 1 of 2 (Pages 1 to 5)...";
     "⚠️ Error in batch 1: Connection error.";
     "Processing batch 2 of 2 (Pages 6 to 7)...";
     "⚠️ Error in batch 2: Connection error."].
Proof. vm_compute. reflexivity. Qed.

Example null_short_answer_keeps_the_mcq :
  (generate_exam_with_groq "prompt" (endpoint_replying "{...}")
     (parser_giving null_short_answer) "key" None (fresh one_page)).2
  = Ok (exam [heap_question] [] []).
Proof. vm_compute. reflexivity. Qed.

Example str_in_str : py_in "mcq" (VStr "no mcq here") = Ok true.
Proof. reflexivity. Qed.

Example str_by_code_point :
  py_iter (VStr "é⚠ok") = Ok [VStr "é"; VStr "⚠"; VStr "o"; VStr "k"].
Proof. reflexivity. Qed.

Example story_of_sparse_exam :
  story (create_pdf_report strict_markup plain_repr no_build (mkReport sparse_exam [])).1
  = [Paragraph "Generated Exam Report" title_style; Spacer 1 20;
     Paragraph "Part I: Multiple Choice Questions" section_style;
     Paragraph "1. N/A" question_style; Spacer 1 10;
     Paragraph "2. What is a heap?" question_style;
     Paragraph "• a" option_style; Paragraph "• b" option_style; Spacer 1 10;
     Paragraph "Part III: Essay Questions" section_style;
     Paragraph "1. N/A" question_style; Spacer 1 10;
     PageBreak; Paragraph "Answer Key" title_style; Spacer 1 20;
     Paragraph "Multiple Choice Answers:" section_style;
     Paragraph "1. N/A" question_style; Paragraph "2. a" question_style;
     Spacer 1 15;
     Paragraph "Essay Key Points:" section_style;
     Paragraph "1. N/A" question_style].
Proof. vm_compute. reflexivity. Qed.

Example markup_in_a_question_stops_the_report :
  create_pdf_report strict_markup plain_repr no_build
    (mkReport (VDict [("short_answer", VList [VDict [("question", VStr "<b>bold")]])]) [])
  = (mkReport (VDict [("short_answer", VList [VDict [("question", VStr "<b>bold")]])])
       [Paragraph "Generated Exam Report" title_style; Spacer 1 20;
        Paragraph "Part II: Short Answer Questions" section_style],
     Raise (mkException "ValueError" "paraparser: syntax error")).
Proof. vm_compute. reflexivity. Qed.

Example display_of_sparse_exam :
  display_exam plain_repr sparse_exam []
  = ([Subheader "Multiple Choice Questions"], Raise (KeyError "question")).
Proof. vm_compute. reflexivity. Qed.

(** ** The properties at work, and where the description goes too far *)

Lemma generate_exam_batches_witness :
  1 <= 2 <= (length seven_pages + 4) / 5
  /\ batches seven_pages !! 1 = Some ["page6"; "page7"]
  /\ map req_content
       (requests (generate_exam_with_groq "prompt" endpoint_down (parser_giving VNone)
                    "key" None (fresh seven_pages)).1)
     = [[Text "prompt";
         ImageUrl "data:image/png;base64,page1"; ImageUrl "data:image/png;base64,page2";
         ImageUrl "data:image/png;base64,page3"; ImageUrl "data:image/png;base64,page4";
         ImageUrl "data:image/png;base64,page5"];
        [Text "prompt";
         ImageUrl "data:image/png;base64,page6"; ImageUrl "data:image/png;base64,page7"]].
Proof.
  assert (1 <= 2 <= (length seven_pages + 4) / 5) as Hk by (vm_compute; lia).
  split; [exact Hk|]. split.
  - exact (proj1 (proj2 (proj2 (proj2
             (generate_exam_batches "prompt" endpoint_down (parser_giving VNone)
                "key" None (fresh seven_pages))))) 2 Hk).
  - exact (proj2 (proj2 (proj2 (proj2 (proj2 (proj2
             (generate_exam_batches "prompt" endpoint_down (parser_giving VNone)
                "key" None (fresh seven_pages)))))))).
Defined.

Lemma failed_batch_is_skipped_witness :
  exists s',
    loop_body "prompt" endpoint_down (parser_giving VNone) "key" (Some Callable) 1 0
      (fresh one_page) = (s', Ok tt)
    /\ all_results s' = []
    /\ base64_images s' = one_page
    /\ requests s' = [build_request "prompt" "key" one_page].
Proof.
  exact (proj1 (failed_batch_is_skipped "prompt" endpoint_down (parser_giving VNone)
                  "key" (Some Callable))
           1 0 (fresh one_page) (mkException "APIConnectionError" "Connection error.")
           eq_refl).
Defined.

(** C3 as stated fails: a response that parses, with a list under [essay],
    whose [short_answer] is [null]. The essay list is not merged. *)
Lemma null_value_drops_later_lists :
  let create := endpoint_replying "{...}" in
  let json_loads := parser_giving null_short_answer in
  let os := outcomes create json_loads []
              (map (build_request "prompt" "key") (batches one_page)) in
  parsed os = [null_short_answer]
  /\ exists d,
       (generate_exam_with_groq "prompt" create json_loads "key" None (fresh one_page)).2
       = Ok d
       /\ questions "essay" d = []
       /\ concat (map (response_questions "essay") (parsed os)) = [trie_question]
       /\ questions "essay" d <> concat (map (response_questions "essay") (parsed os)).
Proof.
  cbn zeta. split; [reflexivity|].
  eexists. split; [vm_compute; reflexivity|].
  split; [reflexivity|]. split; [reflexivity|]. discriminate.
Qed.

Lemma merge_is_concatenation_witness :
  exists s' d,
    generate_exam_with_groq "prompt" (endpoint_replying "{...}")
      (parser_giving good_response) "key" None (fresh seven_pages) = (s', Ok d)
    /\ questions "mcq" d = [heap_question; heap_question].
Proof.
  refine (merge_is_concatenation "prompt" (endpoint_replying "{...}")
            (parser_giving good_response) "key" None (fresh seven_pages) "mcq" _ _).
  - left. reflexivity.
  - vm_compute. repeat constructor.
Defined.



Lemma components_leave_inputs_alone_witness :
  (generate_exam_with_groq "prompt" (endpoint_replying "{...}")
     (parser_giving good_response) "key" None (fresh one_page)).2
  = (generate_exam_with_groq "prompt" (endpoint_replying "{...}")
       (parser_giving good_response) "key" None
       (mkState one_page [("mcq", VList [untitled_item])]
          [build_request "prompt" "key" seven_pages] ["done"])).2.
Proof.
  refine (proj1 (proj1 (proj2 (proj2
            (components_leave_inputs_alone "prompt" (endpoint_replying "{...}")
               (parser_giving good_response) strict_markup plain_repr no_build)))
            "key" None (fresh one_page)
            (mkState one_page [("mcq", VList [untitled_item])]
               [build_request "prompt" "key" seven_pages] ["done"]) eq_refl _)).
  intros later r. reflexivity.
Defined.

Lemma report_defaults_where_display_raises_witness :
  create_pdf_report strict_markup plain_repr no_build (mkReport sparse_exam [PageBreak])
  = (mkReport sparse_exam
       [Paragraph "Generated Exam Report" title_style; Spacer 1 20;
        Paragraph "Part I: Multiple Choice Questions" section_style;
        Paragraph "1. N/A" question_style; Spacer 1 10;
        Paragraph "2. What is a heap?" question_style;
        Paragraph "• a" option_style; Paragraph "• b" option_style; Spacer 1 10;
        Paragraph "Part III: Essay Questions" section_style;
        Paragraph "1. N/A" question_style; Spacer 1 10;
        PageBreak; Paragraph "Answer Key" title_style; Spacer 1 20;
        Paragraph "Multiple Choice Answers:" section_style;
        Paragraph "1. N/A" question_style; Paragraph "2. a" question_style;
        Spacer 1 15;
        Paragraph "Essay Key Points:" section_style;
        Paragraph "1. N/A" question_style],
     Ok [])
  /\ In (Paragraph "1. N/A" question_style)
       (story (create_pdf_report strict_markup plain_repr no_build
                 (mkReport sparse_exam [PageBreak])).1).
Proof.
  assert (all_accepted strict_markup
            (questions_part plain_repr
               (questions "mcq" [("mcq", VList [VDict []; heap_question]);
                                 ("essay", VList [VDict []])])
               (questions "short_answer" [("mcq", VList [VDict []; heap_question]);
                                          ("essay", VList [VDict []])])
               (questions "essay" [("mcq", VList [VDict []; heap_question]);
                                   ("essay", VList [VDict []])])
             ++ PageBreak
                :: answers_part plain_repr
                     (questions "mcq" [("mcq", VList [VDict []; heap_question]);
                                       ("essay", VList [VDict []])])
                     (questions "short_answer" [("mcq", VList [VDict []; heap_question]);
                                                ("essay", VList [VDict []])])
                     (questions "essay" [("mcq", VList [VDict []; heap_question]);
                                         ("essay", VList [VDict []])]))%list) as Hacc.
  { vm_compute. repeat constructor. }
  destruct (proj1 (report_defaults_where_display_raises strict_markup plain_repr no_build)
              [("mcq", VList [VDict []; heap_question]); ("essay", VList [VDict []])]
              [PageBreak] eq_refl Hacc) as [Hrun Hna].
  split.
  - exact Hrun.
  - unfold sparse_exam. rewrite Hrun.
    exact (Hna "mcq" "question" 0 [] (or_introl (conj (or_introl eq_refl) eq_refl))
             eq_refl eq_refl).
Defined.

Lemma extracted_text_is_concatenation_witness :
  extract_document_text (option string) id [None; Some ""; None] = "".
Proof.
  refine (proj2 (proj2 (extracted_text_is_concatenation (option string) id
                          [None; Some ""; None])) _).
  intros p Hp. vm_compute in Hp.
  destruct Hp as [<-|[<-|[<-|[]]]]; [left|right|left]; reflexivity.
Defined.

(** C9 as stated fails: an item that lacks [question] and [answer] and
    whose [options] is [null] is not rendered with defaults; the report
    raises when it iterates the options. *)
Lemma null_options_raise_in_report :
  exam_of_objects (VDict [("mcq", VList [VDict [("options", VNone)]])]) = false
  /\ dict_lookup "question" [("options", VNone)] = None
  /\ create_pdf_report strict_markup plain_repr no_build
       (mkReport (VDict [("mcq", VList [VDict [("options", VNone)]])]) [])
     = (mkReport (VDict [("mcq", VList [VDict [("options", VNone)]])])
          [Paragraph "Generated Exam Report" title_style; Spacer 1 20;
           Paragraph "Part I: Multiple Choice Questions" section_style;
           Paragraph "1. N/A" question_style],
        Raise (TypeError "'NoneType' object is not iterable")).
Proof. repeat split. Qed.

(** * More of the code *)

(** ** What an iteration reports *)

Lemma merges_outcome (v : value) (s : state) (a b c : list value) :
  all_results s = exam a b c ->
  (merge_key "mcq" v;; merge_key "short_answer" v;; merge_key "essay" v) s =
  (set_all_results
     (exam (a ++ (merged (Ok v)).1.1) (b ++ (merged (Ok v)).1.2)
           (c ++ (merged (Ok v)).2)) s,
   try_result (Ok v)).
Proof.
  intros Hd. unfold mbind, M_bind, merged, try_result, try_failure.
  rewrite (merge_mcq_run v s a b c Hd).
  destruct (contribution "mcq" v) as [m|e]; cbn [fst snd].
  2:{ rewrite !app_nil_r, <- Hd, state_eta. reflexivity. }
  rewrite (merge_short_answer_run v (set_all_results (exam (a ++ m) b c) s)
             (a ++ m) b c eq_refl).
  destruct (contribution "short_answer" v) as [sa|e]; cbn [fst snd].
  2:{ rewrite !app_nil_r. reflexivity. }
  rewrite (merge_essay_run v
             (set_all_results (exam (a ++ m) (b ++ sa) c)
                (set_all_results (exam (a ++ m) b c) s))
             (a ++ m) (b ++ sa) c eq_refl).
  destruct (contribution "essay" v) as [es|e]; cbn [fst snd].
  2:{ rewrite !app_nil_r. reflexivity. }
  reflexivity.
Qed.

Section Reports.

Variable prompt_template : string.
Variable create : list request -> request -> result completion.
Variable json_loads : string -> result value.

Lemma try_body_outcome (api_key : string) (batch : list string) (s : state)
    (a b c : list value) :
  all_results s = exam a b c ->
  let r := build_request prompt_template api_key batch in
  let o := batch_outcome create json_loads (requests s) r in
  try_body prompt_template create json_loads api_key batch s =
  (set_all_results
     (exam (a ++ (merged o).1.1) (b ++ (merged o).1.2) (c ++ (merged o).2))
     (add_request r s), try_result o).
Proof.
  intros Hd r o. subst o r.
  cbv [try_body batch_outcome call_endpoint lift mbind M_bind result_bind].
  set (r := build_request prompt_template api_key batch).
  assert (set_all_results (exam (a ++ []) (b ++ []) (c ++ [])) (add_request r s)
          = add_request r s) as Hraise.
  { rewrite !app_nil_r, <- Hd. destruct s; reflexivity. }
  destruct (create (requests s) r) as [cpl|e].
  2:{ cbn [merged fst snd]. rewrite Hraise. reflexivity. }
  destruct (first_content cpl) as [content|e].
  2:{ cbn [merged fst snd]. rewrite Hraise. reflexivity. }
  destruct (loads json_loads content) as [v|e].
  2:{ cbn [merged fst snd]. rewrite Hraise. reflexivity. }
  rewrite <- (merges_outcome v (add_request r s) a b c Hd). reflexivity.
Qed.

(** One iteration, in full. *)
Lemma loop_body_outcome (api_key : string) (cb : option callable)
    (total_pages i : nat) (s : state) (a b c : list value) :
  all_results s = exam a b c ->
  let r := build_request prompt_template api_key
             (slice (base64_images s) i (i + batch_size)) in
  let o := batch_outcome create json_loads (requests s) r in
  loop_body prompt_template create json_loads api_key cb total_pages i s =
  (mkState (base64_images s)
     (exam (a ++ (merged o).1.1) (b ++ (merged o).1.2) (c ++ (merged o).2))
     (requests s ++ [r]) (statuses s ++ batch_report cb total_pages i o),
   Ok tt).
Proof.
  intros Hd r o. unfold loop_body.
  unfold mbind at 1 2. unfold M_bind at 1 2. unfold gets, try_except.
  destruct cb as [c0|]; cbn [notify batch_report].
  - unfold modify at 1.
    rewrite (try_body_outcome api_key _ (add_status _ s) a b c Hd).
    cbn [requests add_status]. fold r. fold o. unfold try_result.
    destruct (try_failure o) as [e|];
      unfold modify, set_all_results, add_request, add_status; cbn;
      rewrite <- ?app_assoc; reflexivity.
  - unfold mret, M_ret.
    rewrite (try_body_outcome api_key _ s a b c Hd).
    fold r. fold o. unfold try_result.
    destruct (try_failure o) as [e|];
      unfold set_all_results, add_request; cbn; rewrite ?app_nil_r; reflexivity.
Qed.

End Reports.

Lemma processing_message_number (j n : nat) :
  processing_message (j * 5) n
  = announce (S j) ((n + 4) / 5) ((S j - 1) * 5 + 1) (Nat.min (S j * 5) n).
Proof.
  unfold processing_message, announce, batch_size.
  rewrite Nat.div_mul by lia.
  replace (j + 1) with (S j) by lia.
  replace (n + 5 - 1) with (n + 4) by lia.
  replace ((S j - 1) * 5 + 1) with (j * 5 + 1) by lia.
  replace (S j * 5) with (j * 5 + 5) by lia.
  reflexivity.
Qed.

Lemma batch_report_number (c0 : callable) (j n : nat) (o : result value) :
  batch_report (Some c0) n (j * 5) o
  = announce (S j) ((n + 4) / 5) ((S j - 1) * 5 + 1) (Nat.min (S j * 5) n)
    :: failure_line (S j) o.
Proof.
  unfold batch_report, failure_line, error_message, batch_size.
  rewrite processing_message_number, Nat.div_mul by lia.
  replace (j + 1) with (S j) by lia. reflexivity.
Qed.

Section StatusTrace.

Variable prompt_template : string.
Variable create : list request -> request -> result completion.
Variable json_loads : string -> result value.

Lemma loop_statuses (api_key : string) (cb : option callable) (n m : nat) :
  forall (j : nat) (s : state) (a b c : list value),
  all_results s = exam a b c ->
  let idx := map (fun k => k * 5) (seq j m) in
  let rs := map (fun i => build_request prompt_template api_key
                            (slice (base64_images s) i (i + batch_size))) idx in
  let os := outcomes create json_loads (requests s) rs in
  statuses (for_each idx (loop_body prompt_template create json_loads api_key cb n) s).1
  = (statuses s ++ match cb with
                   | None => []
                   | Some _ => status_lines n ((n + 4) / 5) (S j) os
                   end)%list.
Proof.
  induction m as [|m IH]; intros j s a b c Hd; cbn zeta.
  - cbn. destruct cb; rewrite app_nil_r; reflexivity.
  - cbn [seq map for_each outcomes]. unfold mbind, M_bind.
    rewrite (loop_body_outcome prompt_template create json_loads api_key cb n
               (j * 5) s a b c Hd).
    match goal with
    | |- context [for_each _ _ ?st] => specialize (IH (S j) st _ _ _ eq_refl)
    end.
    cbn zeta in IH. rewrite IH. cbn [statuses requests base64_images].
    rewrite <- app_assoc. f_equal.
    destruct cb as [c0|]; [|reflexivity].
    rewrite batch_report_number. cbn [status_lines]. reflexivity.
Qed.

(** X1: with a callback, each batch is announced in turn as
    [Processing batch k of ceil(n/5) (Pages (k-1)*5+1 to min(k*5, n))...],
    followed, when its [try] block raised [e] (in the call, the parse or
    a merge), by [Error in batch k: str(e)]; nothing else is reported, and
    without a callback nothing at all. *)
Theorem status_trace (api_key : string) (cb : option callable) (s : state) :
  let n := length (base64_images s) in
  let os := outcomes create json_loads (requests s)
              (map (build_request prompt_template api_key)
                   (batches (base64_images s))) in
  statuses (generate_exam_with_groq prompt_template create json_loads api_key cb s).1
  = (statuses s ++ match cb with
                   | None => []
                   | Some _ => status_lines n ((n + 4) / 5) 1 os
                   end)%list.
Proof.
  cbn zeta. unfold generate_exam_with_groq.
  unfold mbind at 1 2 3. unfold M_bind at 1 2 3. unfold modify at 1. unfold gets at 1.
  set (s0 := set_all_results empty_results s).
  change (base64_images s0) with (base64_images s).
  rewrite range_batch_size.
  pose proof (loop_statuses api_key cb (length (base64_images s))
                ((length (base64_images s) + 4) / 5) 0 s0 [] [] [] eq_refl) as Hloop.
  cbn zeta in Hloop.
  destruct (for_each _ _ s0) as [s1 [[]|e]] eqn:Hrun; cbn [fst] in *;
    unfold gets; cbn [fst]; rewrite Hloop;
    change (statuses s0) with (statuses s); change (requests s0) with (requests s);
    change (base64_images s0) with (base64_images s);
    unfold batches; rewrite range_batch_size, !map_map; reflexivity.
Qed.

End StatusTrace.

(** ** What the endpoint is sent *)

Lemma batches_sizes (imgs : list string) :
  Forall (fun b : list string => 1 <= length b <= 5) (batches imgs).
Proof.
  rewrite batches_by_number. apply Forall_forall. intros b Hb.
  apply list_elem_of_In, in_map_iff in Hb. destruct Hb as (k & <- & Hk).
  apply in_seq in Hk. pose proof (ceil5_bounds (length imgs)).
  unfold slice. rewrite length_take, length_drop. lia.
Qed.

Lemma image_urls_of_request (prompt_template api_key : string) (batch : list string) :
  image_urls (build_request prompt_template api_key batch)
  = map (fun img => "data:image/png;base64," +:+ img) batch.
Proof.
  unfold image_urls, build_request, build_content. cbn [req_content omap list_omap].
  induction batch as [|img batch IH]; [reflexivity|].
  cbn [map omap list_omap image_part]. f_equal. exact IH.
Qed.

Section Requests.

Variable prompt_template : string.
Variable create : list request -> request -> result completion.
Variable json_loads : string -> result value.

(** X2: every request of a call names the same model and key, asks for a
    JSON object, and carries the prompt followed by one to five image
    parts; the image parts of the requests, taken in the order sent, are
    the pages of the document in page order, each as a PNG data URL. *)
Theorem requests_are_well_formed (api_key : string) (cb : option callable) (s : state) :
  let sent :=
    drop (length (requests s))
      (requests (generate_exam_with_groq prompt_template create json_loads
                   api_key cb s).1) in
  Forall (fun r =>
            req_api_key r = api_key /\ req_model r = model
            /\ req_response_format r = "json_object" /\ req_max_tokens r = 2048
            /\ req_content r = Text prompt_template :: map ImageUrl (image_urls r)
            /\ 1 <= length (image_urls r) <= 5) sent
  /\ concat (map image_urls sent)
     = map (fun img => "data:image/png;base64," +:+ img) (base64_images s).
Proof.
  cbn zeta.
  destruct (generate_run prompt_template create json_loads api_key cb s)
    as (s' & Hrun & _ & _ & Hq & _).
  cbn zeta in Hrun. rewrite Hrun. cbn [fst]. rewrite Hq, drop_app_length.
  split.
  - apply Forall_forall. intros r Hr.
    apply list_elem_of_In, in_map_iff in Hr. destruct Hr as (b & <- & Hb).
    pose proof (batches_sizes (base64_images s)) as Hsizes.
    rewrite Forall_forall in Hsizes. specialize (Hsizes b).
    rewrite list_elem_of_In in Hsizes. specialize (Hsizes Hb).
    rewrite image_urls_of_request, length_map.
    repeat split; try lia.
    cbn [req_content build_request]. unfold build_content. f_equal.
    rewrite map_map. reflexivity.
  - rewrite map_map.
    rewrite (map_ext _ (fun b => map (fun img => "data:image/png;base64," +:+ img) b))
      by (intros b; apply image_urls_of_request).
    rewrite <- concat_map, concat_batches. reflexivity.
Qed.

End Requests.

(** ** What a response can and cannot add *)

Lemma merged_non_object (v : value) :
  is_object v = false -> merged (Ok v) = ([], [], []).
Proof.
  destruct v as [| | | |t|l|d]; try discriminate; intros _;
    unfold merged, contribution, py_in, py_getitem, mbind, result_bind;
    try reflexivity.
  - destruct (str_contains "mcq" t); [reflexivity|].
    destruct (str_contains "short_answer" t); [reflexivity|].
    destruct (str_contains "essay" t); reflexivity.
  - destruct (existsb (eq_str "mcq") l); [reflexivity|].
    destruct (existsb (eq_str "short_answer") l); [reflexivity|].
    destruct (existsb (eq_str "essay") l); reflexivity.
Qed.

Section Responses.

Variable prompt_template : string.
Variable create : list request -> request -> result completion.
Variable json_loads : string -> result value.

Let body := loop_body prompt_template create json_loads.
Let request_at (api_key : string) (s : state) (i : nat) : request :=
  build_request prompt_template api_key (slice (base64_images s) i (i + batch_size)).

(** X3: only a JSON object adds questions. When the response of a batch
    parses to anything else (an array, a string, a number, a boolean or
    null) the three lists are after the iteration what they were before,
    whether the merge statements raise on it or not. *)
Theorem only_objects_contribute (api_key : string) (cb : option callable)
    (total_pages i : nat) (s : state) (a b c : list value) (v : value) :
  all_results s = exam a b c ->
  batch_outcome create json_loads (requests s) (request_at api_key s i) = Ok v ->
  is_object v = false ->
  (body api_key cb total_pages i s).2 = Ok tt
  /\ all_results (body api_key cb total_pages i s).1 = exam a b c.
Proof.
  intros Hd Ho Hv. subst body request_at. cbn zeta in *.
  rewrite (loop_body_outcome prompt_template create json_loads api_key cb
             total_pages i s a b c Hd).
  cbn [fst snd all_results]. rewrite Ho, (merged_non_object v Hv). cbn [fst snd].
  rewrite !app_nil_r. auto.
Qed.

(** X4: the merge of one response is not all or nothing. When the
    response is an object with a list under [mcq] and, under
    [short_answer], a value that cannot be iterated ([null], a number, a
    boolean), the [mcq] items are appended, [short_answer] and [essay] get
    nothing (whatever the response holds under [essay]), the exception of
    the iteration is reported to the callback, and the loop goes on. *)
Theorem merge_stops_at_first_bad_value (api_key : string) (c0 : callable)
    (total_pages i : nat) (s : state) (a b c : list value)
    (d : dict) (m : list value) (x : value) (e : Exception) :
  all_results s = exam a b c ->
  batch_outcome create json_loads (requests s) (request_at api_key s i) = Ok (VDict d) ->
  dict_lookup "mcq" d = Some (VList m) ->
  dict_lookup "short_answer" d = Some x ->
  py_iter x = Raise e ->
  body api_key (Some c0) total_pages i s
  = (mkState (base64_images s) (exam (a ++ m) b c)
       (requests s ++ [request_at api_key s i])
       (statuses s ++ [processing_message i total_pages; error_message i e]),
     Ok tt).
Proof.
  intros Hd Ho Hm Hx He. subst body request_at. cbn zeta in *.
  rewrite (loop_body_outcome prompt_template create json_loads api_key (Some c0)
             total_pages i s a b c Hd).
  rewrite Ho.
  assert (contribution "mcq" (VDict d) = Ok m) as Hcm.
  { unfold contribution, py_in, py_getitem, dict_has, mbind, result_bind.
    rewrite Hm. reflexivity. }
  assert (contribution "short_answer" (VDict d) = Raise e) as Hcs.
  { unfold contribution, py_in, py_getitem, dict_has, mbind, result_bind.
    rewrite Hx. exact He. }
  unfold batch_report, try_failure, merged. rewrite Hcm, Hcs. cbn [fst snd].
  rewrite !app_nil_r. reflexivity.
Qed.

(** X5: an iteration only appends. Whatever the endpoint answers, each of
    the three lists after the iteration starts with the list as it was
    before: no question already collected is dropped, changed or moved. *)
Theorem iteration_only_appends (api_key : string) (cb : option callable)
    (total_pages i : nat) (s : state) (a b c : list value) (key : string) :
  all_results s = exam a b c ->
  exam_key key ->
  questions key (all_results s)
    `prefix_of` questions key (all_results (body api_key cb total_pages i s).1).
Proof.
  intros Hd Hkey. subst body. cbn zeta.
  rewrite (loop_body_outcome prompt_template create json_loads api_key cb
             total_pages i s a b c Hd).
  cbn [fst all_results]. rewrite Hd.
  destruct Hkey as [->| [->| ->]]; cbn; eexists; reflexivity.
Qed.

End Responses.

(** ** From the PDF to the model calls *)

Section Pipeline.

Variable page : Type.
Variable render_png : page -> list Byte.byte.
Variable b64encode : list Byte.byte -> string.
Variable prompt_template : string.
Variable create : list request -> request -> result completion.
Variable json_loads : string -> result value.

(** X6: a PDF of [n] pages costs [ceil(n/5)] calls of
    [client.chat.completions.create]. On the images
    [convert_pdf_to_images] returns for it, [generate_exam_with_groq]
    calls [create] exactly [(n+4)/5] times, whatever the calls return or
    raise. *)
Theorem pages_to_model_calls (doc : list page) :
  exists imgs,
    convert_pdf_to_images page render_png b64encode doc = Ok imgs
    /\ forall api_key cb d sent shown,
         length (requests (generate_exam_with_groq prompt_template create json_loads
                             api_key cb (mkState imgs d sent shown)).1)
         = length sent + (length doc + 4) / 5.
Proof.
  exists (map (fun p => b64encode (render_png p)) doc). split.
  - unfold convert_pdf_to_images, range.
    rewrite range_from_step1 by lia. rewrite Nat.sub_0_r.
    rewrite (convert_pages_run page render_png b64encode doc (length doc) 0 []) by lia.
    cbn [drop app]. rewrite firstn_all. reflexivity.
  - intros api_key cb d sent shown.
    destruct (generate_run prompt_template create json_loads api_key cb
                (mkState (map (fun p => b64encode (render_png p)) doc) d sent shown))
      as (s' & Hrun & _ & _ & Hq & _).
    cbn zeta in Hrun. rewrite Hrun. cbn [fst]. rewrite Hq.
    cbn [requests base64_images].
    rewrite length_app, length_map, batches_length, length_map. reflexivity.
Qed.

End Pipeline.

(** ** The lines of the story *)

Lemma filter_none {A} (P : A -> bool) (l : list A) :
  Forall (fun x => P x = false) l -> List.filter P l = [].
Proof.
  induction 1 as [|x l Hx _ IH]; [reflexivity|]. cbn [List.filter].
  rewrite Hx. exact IH.
Qed.

Lemma filter_concat_map {A B} (P : B -> bool) (flow : A -> list B)
    (pick : A -> list B) (l : list A) :
  (forall x, List.filter P (flow x) = pick x) ->
  List.filter P (concat (map flow l)) = concat (map pick l).
Proof.
  intros Hflow. induction l as [|x l IH]; [reflexivity|].
  cbn [map concat]. rewrite List.filter_app, Hflow, IH. reflexivity.
Qed.

Lemma concat_map_singleton {A B} (f : A -> B) (l : list A) :
  concat (map (fun x => [f x]) l) = map f l.
Proof. induction l as [|x l IH]; [reflexivity|]. cbn. f_equal. exact IH. Qed.

Lemma concat_map_nil {A B} (l : list A) :
  concat (map (fun _ : A => @nil B) l) = [].
Proof. induction l as [|x l IH]; [reflexivity|]. exact IH. Qed.

Section StoryLines.

Variable repr : value -> string.

Lemma option_flowables_plain (q : value) :
  Forall (fun f => is_numbered_line f = false /\ is_page_break f = false)
         (option_flowables repr q).
Proof.
  unfold option_flowables.
  destruct (py_get q "options" (VList [])) as [v|]; [|constructor].
  destruct (py_iter v) as [opts|]; [|constructor].
  induction opts as [|o opts IH]; constructor; [split; reflexivity | exact IH].
Qed.

Lemma section_flow_lines (field heading : string) (l : list value)
    (flow : nat * value -> list flowable) (fa : list flowable) :
  (forall iq, List.filter is_numbered_line (flow iq) = [line repr field iq]) ->
  List.filter is_numbered_line fa = [] ->
  List.filter is_numbered_line (section_flow heading l flow fa) = lines repr field l.
Proof.
  intros Hflow Hfa. unfold section_flow, lines.
  destruct l as [|q l]; [reflexivity|].
  cbn [List.filter is_numbered_line].
  rewrite List.filter_app, Hfa, app_nil_r.
  rewrite (filter_concat_map _ _ (fun iq => [line repr field iq])) by exact Hflow.
  apply concat_map_singleton.
Qed.

Lemma section_flow_breaks (heading : string) (l : list value)
    (flow : nat * value -> list flowable) (fa : list flowable) :
  (forall iq, List.filter is_page_break (flow iq) = []) ->
  List.filter is_page_break fa = [] ->
  List.filter is_page_break (section_flow heading l flow fa) = [].
Proof.
  intros Hflow Hfa. unfold section_flow.
  destruct l as [|q l]; [reflexivity|].
  cbn [List.filter is_page_break].
  rewrite List.filter_app, Hfa, app_nil_r.
  rewrite (filter_concat_map _ _ (fun _ => [])) by exact Hflow.
  apply concat_map_nil.
Qed.

Lemma mcq_flow_lines (iq : nat * value) :
  List.filter is_numbered_line
    (line repr "question" iq :: option_flowables repr iq.2 ++ [Spacer 1 10])
  = [line repr "question" iq].
Proof.
  cbn [List.filter line is_numbered_line]. f_equal.
  rewrite List.filter_app. cbn [List.filter is_numbered_line]. rewrite app_nil_r.
  apply filter_none.
  eapply Forall_impl; [apply option_flowables_plain | intros f [H _]; exact H].
Qed.

Lemma mcq_flow_breaks (iq : nat * value) :
  List.filter is_page_break
    (line repr "question" iq :: option_flowables repr iq.2 ++ [Spacer 1 10])
  = [].
Proof.
  cbn [List.filter line is_page_break].
  rewrite List.filter_app. cbn [List.filter is_page_break]. rewrite app_nil_r.
  apply filter_none.
  eapply Forall_impl; [apply option_flowables_plain | intros f [_ H]; exact H].
Qed.

Lemma questions_part_lines (a b c : list value) :
  List.filter is_numbered_line (questions_part repr a b c)
  = (lines repr "question" a ++ lines repr "question" b ++ lines repr "question" c)%list
  /\ List.filter is_page_break (questions_part repr a b c) = [].
Proof.
  unfold questions_part. split.
  - cbn [app List.filter is_numbered_line]. rewrite !List.filter_app.
    rewrite (section_flow_lines "question") by (apply mcq_flow_lines || reflexivity).
    rewrite (section_flow_lines "question") by reflexivity.
    rewrite (section_flow_lines "question") by reflexivity.
    reflexivity.
  - cbn [app List.filter is_page_break]. rewrite !List.filter_app.
    rewrite !section_flow_breaks by (apply mcq_flow_breaks || reflexivity).
    reflexivity.
Qed.

Lemma answers_part_lines (a b c : list value) :
  List.filter is_numbered_line (answers_part repr a b c)
  = (lines repr "answer" a ++ lines repr "answer" b
     ++ lines repr "key_points_to_cover" c)%list
  /\ List.filter is_page_break (answers_part repr a b c) = [].
Proof.
  unfold answers_part. split.
  - cbn [app List.filter is_numbered_line]. rewrite !List.filter_app.
    rewrite (section_flow_lines "answer") by reflexivity.
    rewrite (section_flow_lines "answer") by reflexivity.
    rewrite (section_flow_lines "key_points_to_cover") by reflexivity.
    reflexivity.
  - cbn [app List.filter is_page_break]. rewrite !List.filter_app.
    rewrite !section_flow_breaks by reflexivity.
    reflexivity.
Qed.

End StoryLines.

Section ReportShape.

Variable markup_error : string -> option Exception.
Variable repr : value -> string.
Variable build : list flowable -> result (list Byte.byte).

Lemma section_of_skipped (d : dict) (key heading : string)
    (item : nat -> value -> M report_state unit) (after : M report_state unit) :
  absent_or_falsy key d = true ->
  appends markup_error (VDict d) (section_of markup_error key heading item after) [].
Proof.
  unfold absent_or_falsy. intros Hkey. unfold section_of.
  apply appends_gets_exam. unfold py_get.
  destruct (dict_lookup key d) as [v|].
  - eapply appends_lift; [reflexivity|].
    apply negb_true_iff in Hkey. rewrite Hkey. apply appends_mret.
  - eapply appends_lift; [reflexivity|]. apply appends_mret.
Qed.

(** X7: an exam without questions gives a report with the two titles
    only. When each of [mcq], [short_answer] and [essay] is missing from
    [exam_json] or false as a condition (an empty list, but also [null],
    [0] or an empty string), no section heading is written and nothing
    raises: the story is the title, a spacer, the page break, the
    [Answer Key] title and a spacer. *)
Theorem report_without_questions (d : dict) (old : list flowable) :
  absent_or_falsy "mcq" d = true ->
  absent_or_falsy "short_answer" d = true ->
  absent_or_falsy "essay" d = true ->
  create_pdf_report markup_error repr build (mkReport (VDict d) old)
  = (mkReport (VDict d)
       [Paragraph "Generated Exam Report" title_style; Spacer 1 20; PageBreak;
        Paragraph "Answer Key" title_style; Spacer 1 20],
     build [Paragraph "Generated Exam Report" title_style; Spacer 1 20; PageBreak;
            Paragraph "Answer Key" title_style; Spacer 1 20]).
Proof.
  intros Hm Hs He. apply create_pdf_report_of_story.
  - unfold build_story. eapply appends_eq.
    { repeat first
        [ apply appends_paragraph
        | apply appends_append
        | apply section_of_skipped; assumption
        | eapply appends_bind ]. }
    reflexivity.
  - repeat constructor.
Qed.

(** X8: the answer key follows the questions line for line. On an
    [exam_json] whose question lists hold objects, and when the PDF
    library accepts the paragraph texts as markup, the story handed to the
    library's build has exactly one page break; before it come, in this
    order, one numbered line per multiple-choice, short-answer and essay
    item, showing its [question] (or [N/A]); after it come, in the same
    order and under the same numbers, one line per item showing its
    [answer] (for essays its [key_points_to_cover]) or [N/A]. *)
Theorem answer_key_follows_questions (d : dict) (old : list flowable) :
  exam_of_objects (VDict d) = true ->
  let a := questions "mcq" d in
  let b := questions "short_answer" d in
  let c := questions "essay" d in
  let front := questions_part repr a b c in
  let back := answers_part repr a b c in
  all_accepted markup_error (front ++ PageBreak :: back) ->
  create_pdf_report markup_error repr build (mkReport (VDict d) old)
  = (mkReport (VDict d) (front ++ PageBreak :: back),
     build (front ++ PageBreak :: back))
  /\ List.filter is_page_break front = []
  /\ List.filter is_page_break back = []
  /\ List.filter is_numbered_line front
     = (lines repr "question" a ++ lines repr "question" b
        ++ lines repr "question" c)%list
  /\ List.filter is_numbered_line back
     = (lines repr "answer" a ++ lines repr "answer" b
        ++ lines repr "key_points_to_cover" c)%list.
Proof.
  intros Hd a b c front back Hacc.
  destruct (questions_part_lines repr a b c) as [Hql Hqb].
  destruct (answers_part_lines repr a b c) as [Hal Hab].
  split; [|auto].
  apply create_pdf_report_of_story; [|exact Hacc].
  apply build_story_appends, Hd.
Qed.

End ReportShape.

(** ** The display *)

Lemma decides_bind (m k : M (list widget) unit) (b1 b2 : bool) :
  decides m b1 -> decides k b2 -> decides (m;; k) (b1 && b2).
Proof.
  intros Hm Hk screen. unfold mbind, M_bind. specialize (Hm screen).
  destruct (m screen) as [screen' [[]|e]]; cbn [snd is_ok] in *; subst b1.
  - apply Hk.
  - reflexivity.
Qed.

Lemma decides_show (w : widget) : decides (show w) true.
Proof. intros screen. reflexivity. Qed.

Lemma decides_mret : decides (mret tt) true.
Proof. intros screen. reflexivity. Qed.

Lemma decides_lift_ok {A} (r : result A) (a : A) (f : A -> M (list widget) unit)
    (b : bool) :
  r = Ok a -> decides (f a) b -> decides (lift r ≫= f) b.
Proof. intros -> Hf screen. apply Hf. Qed.

Lemma decides_lift_raise {A} (r : result A) (e : Exception)
    (f : A -> M (list widget) unit) :
  r = Raise e -> decides (lift r ≫= f) false.
Proof. intros -> screen. reflexivity. Qed.

Lemma decides_eq (m : M (list widget) unit) (b b' : bool) :
  decides m b -> b = b' -> decides m b'.
Proof. intros H <-. exact H. Qed.

Lemma decides_for_each {A} (l : list A) (body : A -> M (list widget) unit)
    (ok : A -> bool) :
  (forall x, decides (body x) (ok x)) -> decides (for_each l body) (forallb ok l).
Proof.
  intros Hbody. induction l as [|x l IH]; cbn [for_each forallb].
  - apply decides_mret.
  - apply decides_bind; [apply Hbody | exact IH].
Qed.

Lemma forallb_enumerate {A} (ok : A -> bool) (l : list A) :
  forallb (fun iq : nat * A => ok iq.2) (enumerate l) = forallb ok l.
Proof.
  unfold enumerate. generalize 0 as start.
  induction l as [|x l IH]; intros start; [reflexivity|].
  cbn [length seq zip zip_with forallb snd]. rewrite IH. reflexivity.
Qed.

Section DisplayFacts.

Variable repr : value -> string.

Lemma show_question_decides (i : nat) (q : value) :
  decides (show_question repr i q) (titled q).
Proof.
  unfold show_question, titled, has_question, dict_has.
  destruct q as [| | | | | |d];
    try (eapply decides_lift_raise; reflexivity).
  unfold py_getitem. destruct (dict_lookup "question" d) as [v|].
  - eapply decides_lift_ok; [reflexivity | apply decides_show].
  - eapply decides_lift_raise; reflexivity.
Qed.

Lemma forallb_true {A} (l : list A) : forallb (fun _ : A => true) l = true.
Proof. induction l as [|x l IH]; [reflexivity | exact IH]. Qed.

Lemma show_mcq_decides (i : nat) (q : value) :
  decides (show_mcq repr i q) (titled_mcq q).
Proof.
  unfold show_mcq.
  destruct q as [| | | | | |d]; try (intros screen; reflexivity).
  cbn [titled_mcq].
  apply decides_bind; [apply (show_question_decides i (VDict d))|].
  unfold py_getitem, py_get.
  destruct (dict_lookup "options" d) as [v|];
    [|eapply decides_lift_raise; reflexivity].
  eapply decides_lift_ok; [reflexivity|].
  destruct (py_iter v) as [opts|e] eqn:Hiter;
    [|eapply decides_lift_raise; reflexivity].
  eapply decides_lift_ok; [reflexivity|]. cbn [is_ok].
  eapply decides_eq.
  { apply decides_bind; [apply decides_for_each; intros opt; apply decides_show|].
    apply decides_bind; [apply decides_show|].
    destruct (dict_lookup "answer" d);
      (eapply decides_lift_ok; [reflexivity | apply decides_show]). }
  rewrite forallb_true. reflexivity.
Qed.

Lemma show_short_answer_decides (i : nat) (q : value) :
  decides (show_short_answer repr i q) (titled q).
Proof.
  unfold show_short_answer.
  destruct q as [| | | | | |d]; try (intros screen; reflexivity).
  eapply decides_eq.
  { apply decides_bind; [apply (show_question_decides i (VDict d))|].
    apply decides_bind; [apply decides_show|].
    unfold py_get. destruct (dict_lookup "answer" d);
      (eapply decides_lift_ok; [reflexivity | apply decides_show]). }
  rewrite !andb_true_r. reflexivity.
Qed.

Lemma show_essay_decides (i : nat) (q : value) :
  decides (show_essay repr i q) (titled q).
Proof.
  unfold show_essay.
  destruct q as [| | | | | |d]; try (intros screen; reflexivity).
  eapply decides_eq.
  { apply decides_bind; [apply (show_question_decides i (VDict d))|].
    apply decides_bind; [apply decides_show|].
    unfold py_get. destruct (dict_lookup "key_points_to_cover" d);
      (eapply decides_lift_ok; [reflexivity | apply decides_show]). }
  rewrite !andb_true_r. reflexivity.
Qed.

Lemma show_section_decides (d : dict) (key title : string) (l : list value)
    (item : nat -> value -> M (list widget) unit) (ok : value -> bool) :
  dict_lookup key d = Some (VList l) ->
  (forall i q, decides (item i q) (ok q)) ->
  decides (show_section (VDict d) key title item) (forallb ok l).
Proof.
  intros Hkey Hitem. unfold show_section, py_getitem. rewrite Hkey.
  eapply decides_lift_ok; [reflexivity|].
  destruct l as [|q0 l0] eqn:Hl; [apply decides_mret|]. rewrite <- Hl.
  replace (truthy (VList l)) with true by (rewrite Hl; reflexivity).
  eapply decides_eq.
  { apply decides_bind; [apply decides_show|].
    eapply decides_lift_ok; [reflexivity|].
    eapply decides_lift_ok; [reflexivity|].
    apply (decides_for_each (enumerate l) _ (fun iq => ok iq.2)).
    intros [i q]. apply Hitem. }
  rewrite forallb_enumerate. reflexivity.
Qed.

Lemma display_exam_decides (a b c : list value) :
  decides (display_exam repr (VDict (exam a b c)))
    (forallb titled_mcq a && (forallb titled b && forallb titled c)).
Proof.
  unfold display_exam.
  apply decides_bind;
    [apply (show_section_decides (exam a b c) "mcq" _ a);
       [reflexivity | apply show_mcq_decides]|].
  apply decides_bind;
    [apply (show_section_decides (exam a b c) "short_answer" _ b);
       [reflexivity | apply show_short_answer_decides]|].
  apply (show_section_decides (exam a b c) "essay" _ c);
    [reflexivity | apply show_essay_decides].
Qed.

(** X9: the display goes through exactly when every item can be shown.
    On a result with the three lists, [display_exam] returns normally if
    and only if every multiple-choice item is an object with a [question]
    and with [options] that can be iterated, and every short-answer and
    essay item is an object with a [question]; otherwise it raises at the
    first item that is not. *)
Theorem display_succeeds_iff_items_complete (a b c : list value)
    (screen : list widget) :
  is_ok (display_exam repr (VDict (exam a b c)) screen).2
  = forallb titled_mcq a && (forallb titled b && forallb titled c).
Proof. apply display_exam_decides. Qed.

End DisplayFacts.

(** ** The page after the exam has been generated *)

Lemma merged_for_failed (key : string) (os : list (result value)) :
  Forall (fun o => is_ok o = false) os -> concat (map (merged_for key) os) = [].
Proof.
  induction 1 as [|o os Ho _ IH]; [reflexivity|].
  destruct o as [v|e]; [discriminate|].
  cbn [map concat]. rewrite merged_for_raise. exact IH.
Qed.

Lemma titled_mcq_item (q : value) : titled_mcq q = true -> mcq_item q = true.
Proof.
  destruct q as [| | | | | |d]; try discriminate. cbn [titled_mcq mcq_item].
  intros [_ H]%andb_prop. destruct (dict_lookup "options" d); [exact H | reflexivity].
Qed.

Lemma titled_object (q : value) : titled q = true -> is_object q = true.
Proof. destruct q; try discriminate; reflexivity. Qed.

Lemma forallb_impl {A} (p q : A -> bool) (l : list A) :
  (forall x, p x = true -> q x = true) -> forallb p l = true -> forallb q l = true.
Proof.
  intros Hpq. induction l as [|x l IH]; [reflexivity|]. cbn [forallb].
  intros [Hx Hl]%andb_prop. rewrite (Hpq x Hx), (IH Hl). reflexivity.
Qed.

Section ExamTabFacts.

Variable markup_error : string -> option Exception.
Variable repr : value -> string.
Variable build : list flowable -> result (list Byte.byte).

Lemma no_questions_exam (a b c : list value) :
  no_questions (VDict (exam a b c)) = Ok (is_nil a && (is_nil b && is_nil c)).
Proof. destruct a, b, c; reflexivity. Qed.

Lemma total_questions_exam (a b c : list value) :
  total_questions (VDict (exam a b c)) = Ok (length a + length b + length c).
Proof. reflexivity. Qed.

Lemma show_generated_exam_run (a b c : list value) (page : list output) :
  is_nil a && (is_nil b && is_nil c) = false ->
  show_generated_exam markup_error repr build (VDict (exam a b c)) page
  = (on_page (display_exam repr (VDict (exam a b c)));;
     put Divider;;
     put (Shown (Subheader "📥 Export Exam"));;
     export_exam markup_error repr build (VDict (exam a b c)))
      (page ++ [SuccessBox ("Exam Generated! Total Questions: "
                            +:+ str_of_nat (length a + length b + length c))])%list.
Proof.
  intros Hsome. unfold show_generated_exam.
  unfold mbind at 1. unfold M_bind at 1. unfold lift at 1.
  rewrite no_questions_exam, Hsome.
  unfold mbind at 1. unfold M_bind at 1. unfold lift at 1.
  rewrite total_questions_exam.
  unfold mbind at 1. unfold M_bind at 1. reflexivity.
Qed.

(** X11: one item that cannot be shown costs the whole export. When a
    multiple-choice item lacks [question] or iterable [options], or a
    short-answer or essay item lacks [question], the display raises some
    [e] after showing some widgets [ws], and the page gets exactly: the
    success box with the number of questions, the widgets [ws], and the
    outer handler's [An error occurred: str(e)]. Nothing else is put on
    the page: no divider, no export subheader, no download button, even
    where [create_pdf_report] would have printed [N/A] for the item; the
    handler returns normally. *)
Theorem incomplete_item_ends_the_page (a b c : list value) (page : list output) :
  forallb titled_mcq a && (forallb titled b && forallb titled c) = false ->
  exists ws e,
    display_exam repr (VDict (exam a b c)) [] = (ws, Raise e)
    /\ exam_tab markup_error repr build (VDict (exam a b c)) page
       = ((page
           ++ [SuccessBox ("Exam Generated! Total Questions: "
                           +:+ str_of_nat (length a + length b + length c))]
           ++ map Shown ws
           ++ [ErrorBox ("An error occurred: " +:+ exc_str e)])%list,
          Ok tt).
Proof.
  intros Hbad.
  assert (is_nil a && (is_nil b && is_nil c) = false) as Hsome.
  { destruct a, b, c; try reflexivity. discriminate Hbad. }
  pose proof (display_exam_decides repr a b c []) as Hshow. rewrite Hbad in Hshow.
  destruct (display_exam repr (VDict (exam a b c)) []) as [ws [[]|e]] eqn:Hdisplay;
    [discriminate Hshow|].
  exists ws, e. split; [reflexivity|].
  unfold exam_tab, try_except. rewrite (show_generated_exam_run a b c page Hsome).
  unfold mbind at 1. unfold M_bind at 1. unfold on_page. rewrite Hdisplay.
  unfold put, modify. rewrite <- !app_assoc. reflexivity.
Qed.

(** X12: when every item can be shown and there is at least one, the
    page ends with the export section. After the success box with the
    number of questions (the sum of the three lengths) and the widgets of
    the display come the divider, the [Export Exam] subheader and then
    either the download button carrying the bytes [create_pdf_report]
    returned, or, when [create_pdf_report] raised [e] (while making a
    paragraph or in the library's build), [Error creating PDF: str(e)];
    the handler returns normally in both cases. When the library accepts
    the paragraph texts, what [create_pdf_report] returns or raises is
    what the library's build does on the story written out here. *)
Theorem complete_exam_is_exported (a b c : list value) (page : list output) :
  forallb titled_mcq a && (forallb titled b && forallb titled c) = true ->
  is_nil a && (is_nil b && is_nil c) = false ->
  exists ws,
    display_exam repr (VDict (exam a b c)) [] = (ws, Ok tt)
    /\ exam_tab markup_error repr build (VDict (exam a b c)) page
       = ((page
           ++ [SuccessBox ("Exam Generated! Total Questions: "
                           +:+ str_of_nat (length a + length b + length c))]
           ++ map Shown ws
           ++ [Divider; Shown (Subheader "📥 Export Exam");
               match (create_pdf_report markup_error repr build
                        (mkReport (VDict (exam a b c)) [])).2 with
               | Ok data =>
                   DownloadButton "Download Exam PDF" data "generated_exam.pdf"
                     "application/pdf"
               | Raise e => ErrorBox ("Error creating PDF: " +:+ exc_str e)
               end])%list,
          Ok tt)
    /\ (let st := (questions_part repr a b c
                   ++ PageBreak :: answers_part repr a b c)%list in
        all_accepted markup_error st ->
        create_pdf_report markup_error repr build (mkReport (VDict (exam a b c)) [])
        = (mkReport (VDict (exam a b c)) st, build st)).
Proof.
  intros Hgood Hsome.
  pose proof (display_exam_decides repr a b c []) as Hshow. rewrite Hgood in Hshow.
  apply andb_prop in Hgood as [Ha [Hb Hc]%andb_prop].
  assert (exam_of_objects (VDict (exam a b c)) = true) as Hobj.
  { cbn. rewrite (forallb_impl _ _ a titled_mcq_item Ha).
    rewrite (forallb_impl _ _ b titled_object Hb).
    rewrite (forallb_impl _ _ c titled_object Hc). reflexivity. }
  destruct (display_exam repr (VDict (exam a b c)) []) as [ws [[]|e]] eqn:Hdisplay;
    [|discriminate Hshow].
  exists ws. split; [reflexivity|]. split.
  - unfold exam_tab, try_except. rewrite (show_generated_exam_run a b c page Hsome).
    unfold on_page, export_exam, try_except, lift, put, modify, mbind, M_bind.
    rewrite Hdisplay.
    destruct (create_pdf_report markup_error repr build
                (mkReport (VDict (exam a b c)) [])) as [s' [data|e]];
      cbn [snd]; rewrite <- !app_assoc; reflexivity.
  - intros st Hacc. apply create_pdf_report_of_story; [|exact Hacc].
    exact (build_story_appends markup_error repr (exam a b c) Hobj).
Qed.

End ExamTabFacts.

Section AfterTheRun.

Variable prompt_template : string.
Variable create : list request -> request -> result completion.
Variable json_loads : string -> result value.
Variable markup_error : string -> option Exception.
Variable repr : value -> string.
Variable build : list flowable -> result (list Byte.byte).

(** X10: when every batch fails before the merge (and also when the
    document has no page), the user is told that no technical content was
    found. The function still returns its three lists, all empty, and the
    tab shows the warning box and nothing else: no error, no questions,
    no export section. *)
Theorem failed_run_shows_the_warning (api_key : string) (cb : option callable)
    (s : state) (page : list output) :
  Forall (fun o => is_ok o = false)
    (outcomes create json_loads (requests s)
       (map (build_request prompt_template api_key) (batches (base64_images s)))) ->
  exists s',
    generate_exam_with_groq prompt_template create json_loads api_key cb s
    = (s', Ok (exam [] [] []))
    /\ exam_tab markup_error repr build (VDict (exam [] [] [])) page
       = ((page ++ [WarningBox no_content_warning])%list, Ok tt).
Proof.
  intros Hfailed.
  destruct (generate_run prompt_template create json_loads api_key cb s)
    as (s' & Hrun & _).
  cbn zeta in Hrun. rewrite !merged_for_failed in Hrun by exact Hfailed.
  exists s'. split; [exact Hrun | reflexivity].
Qed.

End AfterTheRun.

(** ** The extracted text of a document in parts *)

Section ExtractParts.

Variable pdf_page : Type.
Variable extract_text : pdf_page -> option string.

(** X13: the text of a document is the text of its first pages followed
    by the text of the remaining pages, wherever the document is cut; so
    the text of each page, when it has one, sits in the document text
    between the text of the pages before it and the text of the pages
    after it, and a page without text leaves no trace. *)
Theorem extracted_text_of_parts (before after : list pdf_page) (p : pdf_page) :
  extract_document_text pdf_page extract_text (before ++ after)
  = extract_document_text pdf_page extract_text before
    +:+ extract_document_text pdf_page extract_text after
  /\ extract_document_text pdf_page extract_text (before ++ p :: after)
     = extract_document_text pdf_page extract_text before
       +:+ match extract_text p with Some t => t | None => "" end
       +:+ extract_document_text pdf_page extract_text after.
Proof.
  assert (forall l1 l2,
             extract_document_text pdf_page extract_text (l1 ++ l2)
             = extract_document_text pdf_page extract_text l1
               +:+ extract_document_text pdf_page extract_text l2) as Hcut.
  { intros l1 l2. unfold extract_document_text.
    rewrite fold_left_app, !extract_from. reflexivity. }
  split; [apply Hcut|].
  rewrite Hcut. f_equal.
  change (p :: after) with ([p] ++ after)%list. rewrite Hcut. f_equal.
  unfold extract_document_text. cbn [fold_left]. unfold extract_step, has_text.
  destruct (extract_text p) as [t|]; [|reflexivity].
  destruct (String.eqb_spec t "") as [->|_]; reflexivity.
Qed.

End ExtractParts.

(** ** The further properties at work *)

Lemma only_objects_contribute_witness :
  (loop_body "prompt" (endpoint_replying "[...]")
     (parser_giving (VList [VStr "mcq"])) "key" None 1 0
     (mkState one_page (exam [heap_question] [] []) [] [])).2 = Ok tt
  /\ all_results
       (loop_body "prompt" (endpoint_replying "[...]")
          (parser_giving (VList [VStr "mcq"])) "key" None 1 0
          (mkState one_page (exam [heap_question] [] []) [] [])).1
     = exam [heap_question] [] [].
Proof.
  exact (only_objects_contribute "prompt" (endpoint_replying "[...]")
           (parser_giving (VList [VStr "mcq"])) "key" None 1 0
           (mkState one_page (exam [heap_question] [] []) [] [])
           [heap_question] [] [] (VList [VStr "mcq"]) eq_refl eq_refl eq_refl).
Defined.

Lemma merge_stops_at_first_bad_value_witness :
  loop_body "prompt" (endpoint_replying "{...}") (parser_giving null_short_answer)
    "key" (Some Callable) 1 0 (mkState one_page (exam [] [] []) [] [])
  = (mkState one_page (exam [heap_question] [] [])
       [build_request "prompt" "key" one_page]
       ["Processing batch 1 of 1 (Pages 1 to 1)...";
        "⚠️ Error in batch 1: 'NoneType' object is not iterable"],
     Ok tt).
Proof.
  exact (merge_stops_at_first_bad_value "prompt" (endpoint_replying "{...}")
           (parser_giving null_short_answer) "key" Callable 1 0
           (mkState one_page (exam [] [] []) [] []) [] [] []
           [("mcq", VList [heap_question]); ("short_answer", VNone);
            ("essay", VList [trie_question])]
           [heap_question] VNone (TypeError "'NoneType' object is not iterable")
           eq_refl eq_refl eq_refl eq_refl eq_refl).
Defined.

Lemma iteration_only_appends_witness :
  [untitled_item]
    `prefix_of` questions "mcq"
                  (all_results
                     (loop_body "prompt" (endpoint_replying "{...}")
                        (parser_giving good_response) "key" None 1 0
                        (mkState one_page (exam [untitled_item] [] []) [] [])).1).
Proof.
  exact (iteration_only_appends "prompt" (endpoint_replying "{...}")
           (parser_giving good_response) "key" None 1 0
           (mkState one_page (exam [untitled_item] [] []) [] [])
           [untitled_item] [] [] "mcq" eq_refl (or_introl eq_refl)).
Defined.

Lemma report_without_questions_witness :
  create_pdf_report strict_markup plain_repr no_build
    (mkReport (VDict [("mcq", VList []); ("short_answer", VNone)]) [PageBreak])
  = (mkReport (VDict [("mcq", VList []); ("short_answer", VNone)])
       [Paragraph "Generated Exam Report" title_style; Spacer 1 20; PageBreak;
        Paragraph "Answer Key" title_style; Spacer 1 20],
     Ok []).
Proof.
  exact (report_without_questions strict_markup plain_repr no_build
           [("mcq", VList []); ("short_answer", VNone)] [PageBreak]
           eq_refl eq_refl eq_refl).
Defined.

Lemma answer_key_follows_questions_witness :
  exists front back,
    create_pdf_report strict_markup plain_repr no_build
      (mkReport (VDict [("mcq", VList [VDict []; heap_question])]) [])
    = (mkReport (VDict [("mcq", VList [VDict []; heap_question])])
         (front ++ PageBreak :: back),
       no_build (front ++ PageBreak :: back))
    /\ List.filter is_page_break front = []
    /\ List.filter is_page_break back = []
    /\ List.filter is_numbered_line front
       = [Paragraph "1. N/A" question_style;
          Paragraph "2. What is a heap?" question_style]
    /\ List.filter is_numbered_line back
       = [Paragraph "1. N/A" question_style; Paragraph "2. a" question_style].
Proof.
  eexists _, _.
  refine (answer_key_follows_questions strict_markup plain_repr no_build
            [("mcq", VList [VDict []; heap_question])] [] eq_refl _).
  vm_compute. repeat constructor.
Defined.

Lemma failed_run_shows_the_warning_witness :
  exists s',
    generate_exam_with_groq "prompt" endpoint_down (parser_giving VNone) "key" None
      (fresh seven_pages) = (s', Ok (exam [] [] []))
    /\ exam_tab strict_markup plain_repr no_build (VDict (exam [] [] [])) []
       = ([WarningBox no_content_warning], Ok tt).
Proof.
  refine (failed_run_shows_the_warning "prompt" endpoint_down (parser_giving VNone)
            strict_markup plain_repr no_build "key" None (fresh seven_pages) [] _).
  vm_compute. repeat constructor.
Defined.

Lemma incomplete_item_ends_the_page_witness :
  exists ws e,
    display_exam plain_repr (VDict (exam [heap_question; untitled_item] [] [])) []
    = (ws, Raise e)
    /\ exam_tab strict_markup plain_repr no_build
         (VDict (exam [heap_question; untitled_item] [] [])) []
       = (([] ++ [SuccessBox "Exam Generated! Total Questions: 2"]
           ++ map Shown ws
           ++ [ErrorBox ("An error occurred: " +:+ exc_str e)])%list,
          Ok tt).
Proof.
  exact (incomplete_item_ends_the_page strict_markup plain_repr no_build
           [heap_question; untitled_item] [] [] [] eq_refl).
Defined.

Lemma complete_exam_is_exported_witness :
  exists ws,
    display_exam plain_repr (VDict (exam [heap_question] [] [trie_question])) []
    = (ws, Ok tt)
    /\ exam_tab strict_markup plain_repr no_build
         (VDict (exam [heap_question] [] [trie_question])) []
       = (([] ++ [SuccessBox "Exam Generated! Total Questions: 2"]
           ++ map Shown ws
           ++ [Divider; Shown (Subheader "📥 Export Exam");
               DownloadButton "Download Exam PDF" [] "generated_exam.pdf"
                 "application/pdf"])%list,
          Ok tt).
Proof.
  destruct (complete_exam_is_exported strict_markup plain_repr no_build
              [heap_question] [] [trie_question] [] eq_refl eq_refl)
    as (ws & Hshow & Hpage & _).
  exists ws. split; [exact Hshow | exact Hpage].
Defined.

Example status_lines_of_two_batches :
  status_lines 7 2 1 [Ok good_response; Raise (mkException "Timeout" "timed out")]
  = ["Processing batch 1 of 2 (Pages 1 to 5)...";
     "Processing batch 2 of 2 (Pages 6 to 7)...";
     "⚠️ Error in batch 2: timed out"].
Proof. vm_compute. reflexivity. Qed.

Example page_of_an_untitled_item :
  exam_tab strict_markup plain_repr no_build (VDict (exam [untitled_item] [] [])) []
  = ([SuccessBox "Exam Generated! Total Questions: 1";
      Shown (Subheader "Multiple Choice Questions");
      ErrorBox "An error occurred: 'question'"], Ok tt).
Proof. vm_compute. reflexivity. Qed.
